(** * TOGA: chain classifier and pipeline controller

    A shallow embedding of [src/modules/classify_chains.py] and of the
    controller class of [src/toga.py], with the properties their
    specification states about them.

    Conventions.
    - A pandas data frame is a list of rows, in frame order; a boolean mask
      [df[mask]] is [List.filter].
    - float64 columns are Rocq's primitive binary64 floats, so NaN,
      infinities and signed zeros behave as in numpy.  Integer columns
      ([chain], [synt], [ex_num]) are [Z].
    - Python dicts and sets whose iteration order the program does not fix
      are [gmap] and [gset].
    - The file system is a finite map from paths, compared as written, to
      files and directories; the directory a file is created in is taken to
      exist.  Texts are ASCII. *)

From Stdlib Require Import ZArith List String Ascii Floats Bool Permutation Lia.
From stdpp Require Import gmap strings list fin_maps pretty.

Local Open Scope Z_scope.

(** ** The chain classifier ([modules/classify_chains.py]) *)

Module Classify.

(** One line of the merged feature table.  Only the columns the classifier
    reads are kept; the table may carry more. *)
Record row := Row {
  gene : string;
  chain : Z;
  synt : Z;
  gl_exo : float;
  loc_exo : float;
  flank_cov : float;
  exon_cover : float;
  ex_fract : float;
  intr_cover : float;
  intr_fract : float;
  chain_len : float;
  ex_num : Z;
  cds_qlen : float
}.

(** [int64 -> float64], round to nearest even. *)
Definition float_of_int (z : Z) : float :=
  SF2Prim (binary_normalize prec emax z 0 false).

(** *** Processed pseudogenes *)

(** The literal [0.95], that is the binary64 value nearest to it. *)
Definition cds_cutoff : float := 0x1.e666666666666p-1%float.

(** [(df["synt"] == 1) & (df["cds_qlen"] > 0.95) & (df["ex_num"] > 1)] *)
Definition is_p_pseudogene (r : row) : bool :=
  (synt r =? 1) && PrimFloat.ltb cds_cutoff (cds_qlen r) && (1 <? ex_num r).

Definition p_pseudogenes (df : list row) : list row :=
  List.filter is_p_pseudogene df.

(** [d[k].append(v)] on a [defaultdict(list)]. *)
Definition dd_append (d : gmap string (list Z)) (k : string) (v : Z)
  : gmap string (list Z) :=
  <[k := default [] (d !! k) ++ [v]]> d.

(** [d[k]] on a [defaultdict(list)], read only. *)
Definition dd_get (d : gmap string (list Z)) (k : string) : list Z :=
  default [] (d !! k).

Definition gene_to_pp_genes (df : list row) : gmap string (list Z) :=
  fold_left (fun d r => dd_append d (gene r) (chain r)) (p_pseudogenes df) ∅.

(** [df.drop(p_pseudogenes, inplace=True)] *)
Definition drop_p_pseudogenes (df : list row) : list row :=
  List.filter (fun r => negb (is_p_pseudogene r)) df.

(** *** Trans chains and the hard filter *)

Definition trans_lines (df : list row) : list row :=
  List.filter (fun r => 1 <? synt r)
    (List.filter (fun r => PrimFloat.eqb (exon_cover r) 0%float)
       (drop_p_pseudogenes df)).

Definition gene_trans (df : list row) : gmap string (list Z) :=
  fold_left (fun d r => dd_append d (gene r) (chain r)) (trans_lines df) ∅.

(** [df = df[df["exon_cover"] > 0]; df = df[df["synt"] > 0]] *)
Definition hard_filter (df : list row) : list row :=
  List.filter (fun r => 0 <? synt r)
    (List.filter (fun r => PrimFloat.ltb 0%float (exon_cover r))
       (drop_p_pseudogenes df)).

(** *** Feature derivation *)

(** One line of [df_final]: the input columns and the derived ones. *)
Record frow := FRow {
  base : row;
  exon_perc : float;
  chain_len_log : float;
  synt_log : float;
  intr_perc : float;
  single_exon : float
}.

(** [fillna(0.0)] on one float cell: only NaN counts as missing. *)
Definition fillna (x : float) : float :=
  if is_nan x then 0%float else x.

Definition fillna_row (r : row) : row :=
  {| gene := gene r; chain := chain r; synt := synt r;
     gl_exo := fillna (gl_exo r); loc_exo := fillna (loc_exo r);
     flank_cov := fillna (flank_cov r);
     exon_cover := fillna (exon_cover r); ex_fract := fillna (ex_fract r);
     intr_cover := fillna (intr_cover r); intr_fract := fillna (intr_fract r);
     chain_len := fillna (chain_len r); ex_num := ex_num r;
     cds_qlen := fillna (cds_qlen r) |}.

(** *** Scores *)

Record score := Score { s_gene : string; s_chain : Z; pred : float }.

(** *** Aggregation per gene *)

Record classes := Classes {
  ORTH : list Z;
  PARA : list Z;
  TRANS : list Z;
  P_PGENES : list Z
}.

Definition no_classes : classes := Classes [] [] [] [].

Inductive verdict := VTrans | VPara | VOrth.

(** The three-way branch on [pred]. *)
Definition decide_class (annot_threshold p : float) : verdict :=
  if PrimFloat.eqb p (-1)%float then VTrans
  else if PrimFloat.ltb p annot_threshold then VPara
  else VOrth.

Definition add_chain (v : verdict) (c : Z) (k : classes) : classes :=
  match v with
  | VTrans => Classes (ORTH k) (PARA k) (TRANS k ++ [c]) (P_PGENES k)
  | VPara => Classes (ORTH k) (PARA k ++ [c]) (TRANS k) (P_PGENES k)
  | VOrth => Classes (ORTH k ++ [c]) (PARA k) (TRANS k) (P_PGENES k)
  end.

(** [if gene_to_pp_genes[gene]: ...["P_PGENES"] = gene_to_pp_genes[gene]] *)
Definition set_pp (pp : list Z) (k : classes) : classes :=
  match pp with
  | [] => k
  | _ => Classes (ORTH k) (PARA k) (TRANS k) pp
  end.

(** One iteration of the loop over [overall_result.itertuples()], on the
    entry of the row's gene. *)
Definition visit (thr : float) (pp : gmap string (list Z)) (s : score)
    (k : classes) : classes :=
  set_pp (dd_get pp (s_gene s)) (add_chain (decide_class thr (pred s)) (s_chain s) k).

(** The dict is keyed by every gene of [overall_result] before the loop
    starts, so the subscript in the loop body always finds its entry. *)
Definition visit_row (thr : float) (pp : gmap string (list Z))
    (d : gmap string classes) (s : score) : gmap string classes :=
  alter (visit thr pp s) (s_gene s) d.

Definition genes_of (res : list score) : gset string :=
  list_to_set (List.map s_gene res).

Definition aggregate (thr : float) (pp : gmap string (list Z))
    (res : list score) : gmap string classes :=
  fold_left (visit_row thr pp) res (gset_to_gmap no_classes (genes_of res)).

(** *** Output formats *)

Definition init_genes_set (df : list row) : gset string :=
  list_to_set (List.map gene df).

Definition tab : string := String (ascii_of_nat 9) EmptyString.
Definition nl : string := String (ascii_of_nat 10) EmptyString.

Definition reject_reason : string := "No classifiable chains".

Definition rejected_line (g : string) : string :=
  g +:+ tab +:+ reject_reason +:+ nl.

(** [",".join(str(x) for x in l) if l else "0"] *)
Definition join_chains (l : list Z) : string :=
  match l with
  | [] => "0"
  | _ => String.concat "," (List.map (fun c : Z => pretty c) l)
  end.

Definition class_line (g : string) (k : classes) : string :=
  String.concat tab
    [g; join_chains (ORTH k); join_chains (PARA k); join_chains (TRANS k);
     join_chains (P_PGENES k)] +:+ nl.

Definition default_annot_threshold : float := 0.5%float.

(** What one call leaves behind: the class table, and the two optional
    files, written only when their path argument is given. *)
Record outputs := Outputs {
  class_table : gmap string classes;
  raw_scores : option (list score);
  rejected : option (list string)
}.

(** Truth value of an optional path argument: [None] and the empty string
    are both false. *)
Definition given (p : option string) : bool :=
  match p with
  | Some (String _ _) => true
  | _ => false
  end.

(** *** Tables as read from a file *)

(** A table as [pd.read_csv] returns it: the header and, per line, one cell
    per column.  A line shorter than the header reads as NaN in the columns
    it lacks. *)
Inductive cell := CStr (s : string) | CInt (z : Z) | CFloat (f : float).

Record frame := Frame { columns : list string; lines : list (list cell) }.

(** [KeyError]: a column the code subscripts is not in the table.
    [Unsupported]: the column is there but holds cells of a kind this
    embedding gives no meaning to (text where a number is read, a fraction
    in an integer column); nothing is stated about such tables. *)
Inductive error := KeyError (name : string) | Unsupported.

Definition bind {A B} (x : error + A) (f : A -> error + B) : error + B :=
  match x with
  | inl e => inl e
  | inr a => f a
  end.

Notation "'let*' x := e 'in' k" := (bind e (fun x => k))
  (at level 10, x name, e at level 100, k at level 200).

Fixpoint index_of (name : string) (l : list string) : option nat :=
  match l with
  | [] => None
  | c :: l' => if String.eqb c name then Some O
               else option_map S (index_of name l')
  end.

(** [df[name]] *)
Definition column (fr : frame) (name : string) : error + list cell :=
  match index_of name (columns fr) with
  | None => inl (KeyError name)
  | Some i => inr (List.map (fun l => nth i l (CFloat nan)) (lines fr))
  end.

Fixpoint traverse {A B} (f : A -> option B) (l : list A) : error + list B :=
  match l with
  | [] => inr []
  | a :: l' => match f a with
               | None => inl Unsupported
               | Some b => let* bs := traverse f l' in inr (b :: bs)
               end
  end.

Definition as_str (c : cell) : option string :=
  match c with CStr s => Some s | _ => None end.
Definition as_int (c : cell) : option Z :=
  match c with CInt z => Some z | _ => None end.
Definition as_float (c : cell) : option float :=
  match c with
  | CFloat f => Some f
  | CInt z => Some (float_of_int z)
  | CStr _ => None
  end.

Definition str_column fr name := let* c := column fr name in traverse as_str c.
Definition int_column fr name := let* c := column fr name in traverse as_int c.
Definition float_column fr name :=
  let* c := column fr name in traverse as_float c.

(** The columns the classifier subscripts, in the order it first does so;
    [chain] is read while the pseudogene chains are collected if there are
    any, and otherwise only when the score table is cut out. *)
Definition load_features (fr : frame) : error + list row :=
  let* genes := str_column fr "gene" in
  let* synts := int_column fr "synt" in
  let* cdss := float_column fr "cds_qlen" in
  let* exns := int_column fr "ex_num" in
  let n := length (lines fr) in
  let pp_at i :=
    (nth i synts 0 =? 1) && PrimFloat.ltb cds_cutoff (nth i cdss nan)
    && (1 <? nth i exns 0) in
  let* early := if existsb pp_at (seq 0 n)
                then int_column fr "chain" else inr [] in
  let* ecs := float_column fr "exon_cover" in
  let* efs := float_column fr "ex_fract" in
  let* cls := float_column fr "chain_len" in
  let* ics := float_column fr "intr_cover" in
  let* ifs := float_column fr "intr_fract" in
  let* gls := float_column fr "gl_exo" in
  let* fls := float_column fr "flank_cov" in
  let* los := float_column fr "loc_exo" in
  let* chains := int_column fr "chain" in
  inr (List.map
         (fun i =>
            {| gene := nth i genes ""; chain := nth i chains 0;
               synt := nth i synts 0;
               gl_exo := nth i gls nan; loc_exo := nth i los nan;
               flank_cov := nth i fls nan;
               exon_cover := nth i ecs nan; ex_fract := nth i efs nan;
               intr_cover := nth i ics nan; intr_fract := nth i ifs nan;
               chain_len := nth i cls nan; ex_num := nth i exns 0;
               cds_qlen := nth i cdss nan |})
         (seq 0 n)).

(** The score table as written with [to_csv] and read back. *)
Definition score_frame (res : list score) : frame :=
  {| columns := ["gene"; "chain"; "pred"];
     lines := List.map (fun s => [CStr (s_gene s); CInt (s_chain s);
                                  CFloat (pred s)]) res |}.

(** The lines of a score table that a model scored: [pred != -1]. *)
Definition model_scored (res : list score) : list score :=
  List.filter (fun s => negb (PrimFloat.eqb (pred s) (-1)%float)) res.

(** *** The pipeline, given the models *)

Section Models.

(** numpy's [log10] on a float64, and the two trained models: the second
    column of [predict_proba], which scores each feature vector on its own. *)
Variable log10 : float -> float.
Variable se_model me_model : list float -> float.

(** The new columns are computed from the columns as loaded; [fillna] then
    runs over the whole frame; [single_exon] is set afterwards.  On an empty
    frame the source assigns the constant column 0, which has no rows. *)
Definition derive (r : row) : frow :=
  {| base := fillna_row r;
     exon_perc := fillna (PrimFloat.div (exon_cover r) (ex_fract r));
     chain_len_log := fillna (log10 (chain_len r));
     synt_log := fillna (log10 (float_of_int (synt r)));
     intr_perc := fillna (PrimFloat.div (intr_cover r) (intr_fract r));
     single_exon := if ex_num r =? 1 then 1%float else 0%float |}.

Definition df_final (df : list row) : list frow :=
  List.map derive (hard_filter df).

Definition df_se (df : list row) : list frow :=
  List.filter (fun f => PrimFloat.eqb (single_exon f) 1%float) (df_final df).

Definition df_me (df : list row) : list frow :=
  List.filter (fun f => PrimFloat.eqb (single_exon f) 0%float) (df_final df).

(** [SE_MODEL_FEATURES] and [ME_MODEL_FEATURES], in column order. *)
Definition X_se (f : frow) : list float :=
  [gl_exo (base f); flank_cov (base f); exon_perc f; synt_log f].

Definition X_me (f : frow) : list float :=
  [gl_exo (base f); loc_exo (base f); flank_cov (base f); synt_log f;
   intr_perc f].

Definition se_result (df : list row) : list score :=
  List.map (fun f => Score (gene (base f)) (chain (base f)) (se_model (X_se f)))
    (df_se df).

Definition me_result (df : list row) : list score :=
  List.map (fun f => Score (gene (base f)) (chain (base f)) (me_model (X_me f)))
    (df_me df).

Definition trans_result (df : list row) : list score :=
  List.map (fun r => Score (gene r) (chain r) (-1)%float) (trans_lines df).

(** [pd.concat([df_se_result, df_me_result, trans_result])] *)
Definition overall_result (df : list row) : list score :=
  se_result df ++ me_result df ++ trans_result df.

Definition gene_class_chains (thr : float) (df : list row)
  : gmap string classes :=
  aggregate thr (gene_to_pp_genes df) (overall_result df).

Definition genes_missing (df : list row) : list string :=
  elements (init_genes_set df ∖ genes_of (overall_result df)).

Definition classify_chains (df : list row) (raw_out rejected_path : option string)
    (annot_threshold : option float) : outputs :=
  let thr := default default_annot_threshold annot_threshold in
  {| class_table := gene_class_chains thr df;
     raw_scores := if given raw_out then Some (overall_result df) else None;
     rejected := if given rejected_path
                 then Some (List.map rejected_line (genes_missing df))
                 else None |}.

(** The same call on a table as read from its file. *)
Definition classify_chains_file (fr : frame)
    (raw_out rejected_path : option string) (annot_threshold : option float)
  : error + outputs :=
  let* df := load_features fr in
  inr (classify_chains df raw_out rejected_path annot_threshold).

End Models.

(** *** Notions used to state the properties *)

Definition verdict_eqb (a b : verdict) : bool :=
  match a, b with
  | VTrans, VTrans | VPara, VPara | VOrth, VOrth => true
  | _, _ => false
  end.

(** The chains of gene [g] that the loop files under verdict [v]. *)
Definition chains_of (thr : float) (v : verdict) (g : string)
    (res : list score) : list Z :=
  List.map s_chain
    (List.filter (fun s => bool_decide (s_gene s = g) &&
                           verdict_eqb (decide_class thr (pred s)) v) res).

Definition visit_if (thr : float) (pp : gmap string (list Z)) (g : string)
    (k : classes) (s : score) : classes :=
  if bool_decide (s_gene s = g) then visit thr pp s k else k.

(** A gene is classifiable when one of its rows is scored by a model or is
    a trans chain. *)
Definition classifiable (df : list row) (g : string) : Prop :=
  exists r, (In r (hard_filter df) \/ In r (trans_lines df)) /\ gene r = g.

(** The rows that get a line in the score table: no processed pseudogene,
    and either coding bases aligned with some synteny, or none aligned with
    a synteny above 1. *)
Definition reaches_output (r : row) : bool :=
  negb (is_p_pseudogene r) &&
  (PrimFloat.ltb 0%float (exon_cover r) && (0 <? synt r)
   || PrimFloat.eqb (exon_cover r) 0%float && (1 <? synt r)).

(** The columns [load_features] needs. *)
Definition required_columns : list string :=
  ["gene"; "synt"; "cds_qlen"; "ex_num"; "exon_cover"; "ex_fract";
   "chain_len"; "intr_cover"; "intr_fract"; "gl_exo"; "flank_cov";
   "loc_exo"; "chain"].

(** A feature table written out column by column, with one more column
    that the classifier does not read. *)
Definition feature_frame (df : list row) : frame :=
  {| columns := ["gene"; "chain"; "synt"; "gl_exo"; "loc_exo"; "flank_cov";
                 "exon_cover"; "ex_fract"; "intr_cover"; "intr_fract";
                 "chain_len"; "exon_qlen"; "ex_num"; "cds_qlen"];
     lines := List.map
       (fun r => [CStr (gene r); CInt (chain r); CInt (synt r);
                  CFloat (gl_exo r); CFloat (loc_exo r);
                  CFloat (flank_cov r); CFloat (exon_cover r);
                  CFloat (ex_fract r); CFloat (intr_cover r);
                  CFloat (intr_fract r); CFloat (chain_len r);
                  CFloat 0%float; CInt (ex_num r); CFloat (cds_qlen r)]) df |}.

(** In how many of the four lists of [k] the chain [c] occurs. *)
Definition lists_holding (c : Z) (k : classes) : nat :=
  length (List.filter (fun l : list Z => bool_decide (c ∈ l))
            [ORTH k; PARA k; TRANS k; P_PGENES k]).


End Classify.

(** ** Sample inputs *)

Module Samples.
Import Classify.

(** A model that answers the same probability for every feature vector, and
    a stand-in for [log10]; the facts checked on the samples below depend on
    neither. *)
Definition const_model (p : float) : list float -> float := fun _ => p.
Definition log10_stand_in : float -> float := fun x => x.

Definition mk_row (g : string) (c s : Z) (ec ef : float) (n : Z) (q : float)
  : row :=
  {| gene := g; chain := c; synt := s;
     gl_exo := 0.5%float; loc_exo := 0.5%float; flank_cov := 0.5%float;
     exon_cover := ec; ex_fract := ef;
     intr_cover := 0%float; intr_fract := 0%float;
     chain_len := 1000%float; ex_num := n; cds_qlen := q |}.

(** gene G1, chain 1: synt 1, two exons, 97% of the CDS covered. *)
Definition row_pp : row :=
  mk_row "G1" 1 1 100%float 100%float 2 (97 / 100)%float.

(** gene G1, chain 7: an ordinary multi-exon chain. *)
Definition row_me : row :=
  mk_row "G1" 7 3 80%float 100%float 4 0.5%float.

(** gene G2, chain 2: synt 5 and no aligned coding base. *)
Definition row_trans : row :=
  mk_row "G2" 2 5 0%float 0%float 3 0%float.

(** gene G4, chain 4: single exon, positive coverage of an exon fraction 0. *)
Definition row_zero_fract : row :=
  mk_row "G4" 4 5 100%float 0%float 1 0.5%float.

Definition run (df : list row) : outputs :=
  classify_chains log10_stand_in (const_model 0.5%float) (const_model 0.5%float)
    df (Some "scores.tsv") (Some "rejected.txt") None.

End Samples.

(** ** Text and paths *)

Module Text.

Definition newline : ascii := ascii_of_nat 10.
Definition slash : ascii := "/"%char.

(** [s.startswith(p)] *)
Definition startswith (p s : string) : bool := String.prefix p s.

Fixpoint last_char (s : string) : option ascii :=
  match s with
  | EmptyString => None
  | String c EmptyString => Some c
  | String _ s' => last_char s'
  end.

(** [os.path.join(a, b)] on POSIX. *)
Definition path_join (a b : string) : string :=
  if startswith "/" b then b
  else match last_char a with
       | None => b
       | Some c => if Ascii.eqb c slash then a +:+ b else a +:+ "/" +:+ b
       end.

(** [s.split(sep)] for a one-character separator: the pieces between the
    separators, empty ones included; never the empty list. *)
Fixpoint split_on (sep : ascii) (s : string) : list string :=
  match s with
  | EmptyString => [EmptyString]
  | String c s' =>
      if Ascii.eqb c sep then EmptyString :: split_on sep s'
      else match split_on sep s' with
           | [] => [String c EmptyString]
           | w :: ws => String c w :: ws
           end
  end.

(** [f.readlines()]: the lines of a text, each with its newline; a last
    line without one is kept as it is. *)
Fixpoint readlines (s : string) : list string :=
  match s with
  | EmptyString => []
  | String c s' =>
      if Ascii.eqb c newline then String c EmptyString :: readlines s'
      else match readlines s' with
           | [] => [String c EmptyString]
           | l :: ls => String c l :: ls
           end
  end.

(** [sep.join(l)] *)
Definition join (sep : string) (l : list string) : string :=
  String.concat sep l.

(** [s[n:]] *)
Fixpoint drop (n : nat) (s : string) : string :=
  match n, s with
  | O, _ => s
  | S _, EmptyString => EmptyString
  | S n', String _ s' => drop n' s'
  end.

(** [s.endswith(p)] *)
Definition endswith (p s : string) : bool :=
  (String.length p <=? String.length s)%nat &&
  String.eqb (drop (String.length s - String.length p) s) p.

(** [os.path.basename(p)]: what follows the last slash. *)
Definition basename (p : string) : string :=
  List.last (split_on slash p) EmptyString.

(** [s.replace(c, "")] for a one-character [c]. *)
Fixpoint remove_char (c : ascii) (s : string) : string :=
  match s with
  | EmptyString => EmptyString
  | String a s' => if Ascii.eqb a c then remove_char c s'
                   else String a (remove_char c s')
  end.

(** Truth value of an optional string: [None] and [""] are false. *)
Definition truthy (o : option string) : bool :=
  match o with
  | Some (String _ _) => true
  | _ => false
  end.

End Text.

(** ** Splitting the job list into memory buckets ([Toga.__run_cesar_jobs]) *)

Module Buckets.

(** The pattern handed to [grep]: [_] and the bucket number, then [.bdb],
    where the dot stands for any one character. *)
Inductive pat := Lit (c : ascii) | AnyChar.

Definition lits (s : string) : list pat :=
  List.map Lit (list_ascii_of_string s).

Definition bucket_pattern (b : Z) : list pat :=
  lits ("_" +:+ pretty b) ++ [AnyChar] ++ lits "bdb".

Fixpoint match_here (p : list pat) (s : string) : bool :=
  match p, s with
  | [], _ => true
  | _ :: _, EmptyString => false
  | Lit c :: p', String a s' => Ascii.eqb c a && match_here p' s'
  | AnyChar :: p', String _ s' => match_here p' s'
  end.

(** The line has a match of the pattern somewhere. *)
Fixpoint grep_match (p : list pat) (s : string) : bool :=
  match_here p s ||
  match s with
  | EmptyString => false
  | String _ s' => grep_match p s'
  end.

(** [cat combined | grep _{b}.bdb] *)
Definition grep_bucket (b : Z) (combined : list string) : list string :=
  List.filter (grep_match (bucket_pattern b)) combined.

(** The job list pushed for bucket [b], if any: bucket 0 takes the whole
    combined list; a bucket whose pattern matches no line is skipped. *)
Definition bucket_tasks (b : Z) (combined : list string)
  : option (list string) :=
  if b =? 0 then Some combined
  else match grep_bucket b combined with
       | [] => None
       | l => Some l
       end.

(** All job lists pushed, in bucket order. *)
Fixpoint pushed_joblists (buckets : list Z) (combined : list string)
  : list (Z * list string) :=
  match buckets with
  | [] => []
  | b :: bs =>
      match bucket_tasks b combined with
      | Some l => (b, l) :: pushed_joblists bs combined
      | None => pushed_joblists bs combined
      end
  end.

(** How many of the declared buckets select the line. *)
Definition selected_by (buckets : list Z) (line : string) : nat :=
  length (List.filter (fun b => grep_match (bucket_pattern b) line) buckets).

Definition sample_jobs : list string :=
  ["cesar jobs/part_2.bdb"; "cesar jobs/part_5.bdb"; "cesar jobs/part_10.bdb"].

End Buckets.

(** ** The pipeline controller ([toga.py]) *)

Module Toga.
Import Text.

(** *** The file system and the process *)

(** Files hold text; paths are compared as written (no links, no [..]). *)
Inductive node := File (content : string) | Dir.

Record world := World {
  fs : gmap string node;
  err : list string;   (* what was written to stderr, in order *)
  out : list string    (* what was printed, in order *)
}.

(** How a piece of the controller ends: it returns, it leaves the process
    through [sys.exit], or an exception escapes it (nothing is said of the
    files an escaping exception leaves behind). *)
Inductive outcome (A : Type) :=
| Ret (a : A) (w : world)
| Exit (rc : Z) (w : world)
| Raise (exn : string).
Arguments Ret {A}.
Arguments Exit {A}.
Arguments Raise {A}.

Definition andthen {A B} (x : outcome A) (f : A -> world -> outcome B)
  : outcome B :=
  match x with
  | Ret a w => f a w
  | Exit rc w => Exit rc w
  | Raise e => Raise e
  end.

Definition isfile (f : gmap string node) (p : string) : bool :=
  match f !! p with Some (File _) => true | _ => false end.

Definition isdir (f : gmap string node) (p : string) : bool :=
  match f !! p with Some Dir => true | _ => false end.

(** [k] is [d] or lies below it. *)
Definition under (d k : string) : bool :=
  String.eqb k d || startswith (d +:+ "/") k.

(** [shutil.rmtree(d)] *)
Definition rmtree (d : string) (f : gmap string node) : gmap string node :=
  filter (fun kv => under d kv.1 = false) f.

(** The name of [k] inside directory [d], if [k] is an entry of [d]. *)
Definition entry_name (d k : string) : option string :=
  if startswith (d +:+ "/") k then
    match drop (String.length d + 1) k with
    | EmptyString => None
    | n => if existsb (Ascii.eqb slash) (list_ascii_of_string n)
           then None else Some n
    end
  else None.

(** [os.listdir(d)], in some order. *)
Definition listdir (f : gmap string node) (d : string) : list string :=
  omap (fun kv => entry_name d kv.1) (map_to_list f).

Definition eputs (msg : string) (w : world) : world :=
  {| fs := fs w; err := err w ++ [msg]; out := out w |}.

Definition set_fs (f : gmap string node) (w : world) : world :=
  {| fs := f; err := err w; out := out w |}.

(** *** The controller object *)

(** The attributes of [self] that the methods below read. *)
Record toga := {
  LOCATION : string;
  wd : string;
  project_name : string;
  rejected_dir : string;
  chain_file : string;
  chain_results_df : string;
  gene_loss_data : string;
  cesar_results : string;
  cesar_buckets : string;
  cesar_mem_limit : Z;
  stop_at_chain_class : bool;
  time_log : option string;
  keep_temp : bool;
  temp_files : list string
}.

(** *** [die] *)

(** One turn of the loop in [die]: the path goes if it is a file, then
    (looked up again) if it is a directory, unless temp files are kept. *)
Definition cleanup_one (keep : bool) (f : gmap string node) (t : string)
  : gmap string node :=
  let f1 := if isfile f t && negb keep then delete t f else f in
  if isdir f1 t && negb keep then rmtree t f1 else f1.

Definition cleanup (self : toga) (f : gmap string node) : gmap string node :=
  fold_left (cleanup_one (keep_temp self)) (temp_files self) f.

Definition die {A} (self : toga) (msg : string) (rc : Z) (w : world)
  : outcome A :=
  Exit rc
    {| fs := cleanup self (fs w);
       err := err w ++ [msg +:+ "
"; "Program finished with exit code " +:+ pretty rc +:+ "
"];
       out := out w |}.

(** *** [__merge_dir] and [__merge_split_files] *)

(** The text of one merged file: its lines except the empty ones. *)
Definition nonblank_lines (content : string) : string :=
  join "" (List.filter (fun x => negb (String.eqb x "
")) (readlines content)).

(** The loop over [files_list]: every entry must be a readable file. *)
Fixpoint merge_files (f : gmap string node) (d : string)
    (names : list string) (buffer : string) : option string :=
  match names with
  | [] => Some buffer
  | n :: ns =>
      match f !! path_join d n with
      | Some (File c) => merge_files f d ns (buffer +:+ nonblank_lines c)
      | _ => None
      end
  end.

(** A static method: it has no [self], and leaves through [sys.exit] with a
    message (status 1) when the directory is empty.  Listing something that
    is no directory, opening a directory as the output, and reading an entry
    that is no file raise [OSError]. *)
Definition merge_dir (dir_name output : string) (w : world) : outcome unit :=
  if negb (isdir (fs w) dir_name) then Raise "OSError"
  else match listdir (fs w) dir_name with
  | [] => Exit 1 (eputs ("Error! " +:+ dir_name +:+ " is empty
") w)
  | names =>
      if isdir (fs w) output then Raise "OSError"
      else
        let f1 := <[output := File ""]> (fs w) in
        match merge_files f1 dir_name names "" with
        | None => Raise "OSError"
        | Some text =>
            Ret tt (set_fs (rmtree dir_name (<[output := File text]> f1)) w)
        end
  end.

Definition merge_split_files (self : toga) (w : world) : outcome unit :=
  andthen (merge_dir (rejected_dir self)
             (path_join (wd self) "genes_rejection_reason.tsv") w) (fun _ w1 =>
  andthen (merge_dir (gene_loss_data self)
             (path_join (wd self) "inact_mut_data.txt") w1) (fun _ w2 =>
  merge_dir (cesar_results self)
    (path_join (wd self) "cesar_results.txt") w2)).

(** *** Command line and [__init__] *)

(** The namespace [parse_args] returns. *)
Record args := {
  chain_input : string;
  bed_input : string;
  tDB : string;
  qDB : string;
  project_folder : option string;
  a_project_name : option string;
  min_score : Z;
  isoforms : string;
  a_keep_temp : bool;
  limit_to_ref_chrom : option string;
  nextflow_dir : option string;
  nextflow_config_dir : option string;
  do_not_del_nf_logs : bool;
  chain_jobs_num : Z;
  no_chain_filter : bool;
  cesar_jobs_num : Z;
  cesar_binary : option string;
  mask_stops : bool;
  a_cesar_buckets : string;
  cesar_chain_limit : Z;
  a_cesar_mem_limit : Z;
  homology_types : string;
  time_marks : option string;
  u12 : option string;
  a_stop_at_chain_class : bool;
  uhq_flank : Z;
  o2o_only : bool;
  no_fpi : bool
}.

(** The defaults of the options, for given positional arguments. *)
Definition default_args (chain bed t q : string) : args :=
  {| chain_input := chain; bed_input := bed; tDB := t; qDB := q;
     project_folder := None; a_project_name := None; min_score := 15000;
     isoforms := ""; a_keep_temp := false; limit_to_ref_chrom := None;
     nextflow_dir := None; nextflow_config_dir := None;
     do_not_del_nf_logs := false; chain_jobs_num := 100;
     no_chain_filter := false; cesar_jobs_num := 500; cesar_binary := None;
     mask_stops := false; a_cesar_buckets := "0"; cesar_chain_limit := 100;
     a_cesar_mem_limit := 16; homology_types := "ORTH,TRANS";
     time_marks := None; u12 := None; a_stop_at_chain_class := false;
     uhq_flank := 50; o2o_only := false; no_fpi := false |}.

Definition with_min_score (m : Z) (a : args) : args :=
  {| chain_input := chain_input a; bed_input := bed_input a; tDB := tDB a;
     qDB := qDB a; project_folder := project_folder a;
     a_project_name := a_project_name a; min_score := m;
     isoforms := isoforms a; a_keep_temp := a_keep_temp a;
     limit_to_ref_chrom := limit_to_ref_chrom a;
     nextflow_dir := nextflow_dir a;
     nextflow_config_dir := nextflow_config_dir a;
     do_not_del_nf_logs := do_not_del_nf_logs a;
     chain_jobs_num := chain_jobs_num a;
     no_chain_filter := no_chain_filter a;
     cesar_jobs_num := cesar_jobs_num a; cesar_binary := cesar_binary a;
     mask_stops := mask_stops a; a_cesar_buckets := a_cesar_buckets a;
     cesar_chain_limit := cesar_chain_limit a;
     a_cesar_mem_limit := a_cesar_mem_limit a;
     homology_types := homology_types a; time_marks := time_marks a;
     u12 := u12 a; a_stop_at_chain_class := a_stop_at_chain_class a;
     uhq_flank := uhq_flank a; o2o_only := o2o_only a; no_fpi := no_fpi a |}.

(** The project name: the option if given, else the second dot-separated
    piece of the chain file's name ([IndexError] if it has no dot). *)
Definition project_name_of (a : args) : option string :=
  if truthy (a_project_name a) then a_project_name a
  else nth_error (split_on "."%char (basename (chain_input a))) 1.

(** The attributes [__init__] derives from the arguments, the directory of
    the scripts and the current directory; [temp_files] starts empty. *)
Definition init_fields (location cwd : string) (a : args) : option toga :=
  match project_name_of a with
  | None => None
  | Some pn =>
      let w := if truthy (project_folder a)
               then default "" (project_folder a)
               else path_join cwd pn in
      Some {| LOCATION := location;
              wd := w;
              project_name := remove_char slash pn;
              rejected_dir := path_join w "rejected";
              chain_file := path_join w "genome_alignment.chain";
              chain_results_df := path_join w "chain_results_df.tsv";
              gene_loss_data := path_join w "inact_mut_data";
              cesar_results := path_join w "cesar_results";
              cesar_buckets := a_cesar_buckets a;
              cesar_mem_limit := a_cesar_mem_limit a;
              stop_at_chain_class := a_stop_at_chain_class a;
              time_log := time_marks a;
              keep_temp := a_keep_temp a;
              temp_files := [] |}
  end.

(** The command that prepares the chain file; [None] when the input is not
    a file (the controller dies). *)
Definition chain_filter_cmd (score_filter chain_out : string) (a : args)
    (input_is_file : bool) : option string :=
  if negb input_is_file then None
  else if endswith ".gz" (basename (chain_input a)) then
    Some ("gzip -dc " +:+ chain_input a +:+ " | " +:+ score_filter +:+
          " stdin " +:+ pretty (min_score a) +:+ " > " +:+ chain_out)
  else if no_chain_filter a then
    Some ("rsync -a " +:+ chain_input a +:+ " " +:+ chain_out)
  else
    Some (score_filter +:+ " " +:+ chain_input a +:+ " " +:+
          pretty (min_score a) +:+ " > " +:+ chain_out).

(** *** [__classify_chains] *)

(** The arguments of the call to [classify_chains]. *)
Record classify_call := {
  cc_table : string;
  cc_output : string;
  cc_se_model : string;
  cc_me_model : string;
  cc_raw_out : option string;
  cc_rejected : option string;
  cc_annot_threshold : option float
}.

Definition classify_call_of (self : toga) : classify_call :=
  {| cc_table := chain_results_df self;
     cc_output := path_join (wd self) "trans_to_chain_classes.tsv";
     cc_se_model :=
       path_join (path_join (LOCATION self) "models") "se_model.dat";
     cc_me_model :=
       path_join (path_join (LOCATION self) "models") "me_model.dat";
     cc_raw_out := Some (path_join (wd self) "orthology_scores.tsv");
     cc_rejected :=
       Some (path_join (rejected_dir self) "classify_chains_rejected.txt");
     cc_annot_threshold := None |}.

Section Stage.

Variable log10 : float -> float.
Variable se_model me_model : list float -> float.

(** What the stage computes from the merged feature table. *)
Definition classify_stage (self : toga) (df : list Classify.row)
  : Classify.outputs :=
  let c := classify_call_of self in
  Classify.classify_chains log10 se_model me_model df
    (cc_raw_out c) (cc_rejected c) (cc_annot_threshold c).

End Stage.

(** *** Sample state *)

Definition sample_toga : toga :=
  {| LOCATION := "/opt/toga"; wd := "/wd"; project_name := "hg38";
     rejected_dir := "/wd/rejected"; chain_file := "/wd/genome_alignment.chain";
     chain_results_df := "/wd/chain_results_df.tsv";
     gene_loss_data := "/wd/inact_mut_data";
     cesar_results := "/wd/cesar_results";
     cesar_buckets := "0"; cesar_mem_limit := 16;
     stop_at_chain_class := false; time_log := None; keep_temp := false;
     temp_files := ["/wd/genome_alignment.chain"; "/wd/cesar_jobs"] |}.

(** The chain file and a job directory are registered as temporary; the
    rejected-genes directory holds one log, and no job wrote any
    inactivating-mutation data. *)
Definition sample_world : world :=
  {| fs := list_to_map
       [("/wd", Dir);
        ("/wd/genome_alignment.chain", File "chain 1");
        ("/wd/cesar_jobs", Dir);
        ("/wd/cesar_jobs/job_1", File "cesar a b");
        ("/wd/rejected", Dir);
        ("/wd/rejected/BED_FILTER_REJECTED.txt", File "T1	no CDS
");
        ("/wd/inact_mut_data", Dir);
        ("/wd/cesar_results", Dir)];
     err := []; out := [] |}.

End Toga.

(** ** The checks of the input files ([toga.py], during [__init__]) *)

Module Gate.
Import Text Toga.

(** Texts are ASCII here; a file's content is its text as text mode reads
    it, with newline as the only line end. *)

(** [c.isspace()] for an ASCII character: tab to carriage return, the four
    separators 28 to 31, and the space. *)
Definition is_space (c : ascii) : bool :=
  let n := nat_of_ascii c in
  ((9 <=? n) && (n <=? 13) || (28 <=? n) && (n <=? 32))%nat.

(** [s.rstrip()] *)
Fixpoint rstrip (s : string) : string :=
  match s with
  | EmptyString => EmptyString
  | String c s' =>
      match rstrip s' with
      | EmptyString => if is_space c then EmptyString
                       else String c EmptyString
      | r => String c r
      end
  end.

Definition is_digit (c : ascii) : bool :=
  let n := nat_of_ascii c in ((48 <=? n) && (n <=? 57))%nat.

(** [s.isnumeric()] for an ASCII string: some characters, all digits. *)
Definition isnumeric (s : string) : bool :=
  match s with
  | EmptyString => false
  | _ => forallb is_digit (list_ascii_of_string s)
  end.

Definition tab_char : ascii := ascii_of_nat 9.

(** [line.rstrip().split("	")] *)
Definition fields (line : string) : list string :=
  split_on tab_char (rstrip line).

(** A newline, then the names one per line. *)
Definition nl_join (l : list string) : string :=
  "
" +:+ join "
" l.

Definition U12_FILE_COLS : nat := 3.
Definition ISOFORMS_FILE_COLS : nat := 2.

(** [acc_don in U12_AD_FIELD] *)
Definition is_acc_don (s : string) : bool :=
  String.eqb s "A" || String.eqb s "D".

(** The loop of [__check_u12_file] from line [num] on: the message of the
    first fatal line, or the lines kept. *)
Fixpoint u12_scan (u12_out : string) (t_in_bed : gset string) (num : nat)
    (lines : list string) : string + list string :=
  match lines with
  | [] => inr []
  | line :: rest =>
      let line_data := fields line in
      if negb (length line_data =? U12_FILE_COLS)%nat then
        inl ("Error! U12 file " +:+ u12_out +:+ " line " +:+ pretty num +:+
             " is corrupted, 3 fields expected; Got " +:+
             pretty (length line_data) +:+
             "; please note that a tab-separated file expected")
      else if negb (bool_decide (nth 0 line_data "" ∈ t_in_bed)) then
        u12_scan u12_out t_in_bed (S num) rest
      else if negb (isnumeric (nth 1 line_data "")) then
        inl ("Error! U12 file " +:+ u12_out +:+ " line " +:+ pretty num +:+
             " is corrupted, field 2 value is " +:+ nth 1 line_data "" +:+
             "; This field must contain a numeric value (exon number).")
      else if negb (is_acc_don (nth 2 line_data "")) then
        inl ("Error! U12 file " +:+ u12_out +:+ " line " +:+ pretty num +:+
             " is corrupted, field 3 value is " +:+ nth 2 line_data "" +:+
             "; This field could have either A or D value.")
      else
        match u12_scan u12_out t_in_bed (S num) rest with
        | inl msg => inl msg
        | inr kept => inr (line :: kept)
        end
  end.

(** The loop of [__check_isoforms_file]: the message of the first fatal
    line, or the lines kept with their transcripts. *)
Fixpoint iso_scan (iso_out : string) (t_in_bed : gset string) (num : nat)
    (lines : list string) : string + list (string * string) :=
  match lines with
  | [] => inr []
  | line :: rest =>
      let line_data := fields line in
      if negb (length line_data =? ISOFORMS_FILE_COLS)%nat then
        inl ("Error! Isoforms file " +:+ iso_out +:+ " line " +:+
             pretty num +:+ ": Expected " +:+ pretty ISOFORMS_FILE_COLS +:+
             " fields, got " +:+ pretty (length line_data))
      else
        match iso_scan iso_out t_in_bed (S num) rest with
        | inl msg => inl msg
        | inr kept =>
            if bool_decide (nth 1 line_data "" ∈ t_in_bed)
            then inr ((line, nth 1 line_data "") :: kept)
            else inr kept
        end
  end.

Section Checks.

(** [modules.common.eprint], which is not among the sources: some way of
    reporting a message. *)
Variable eprint : string -> world -> world.

(** [open(path, "w")] and [write]: a directory cannot be opened. *)
Definition write_file (path text : string) (w : world) : outcome unit :=
  if isdir (fs w) path then Raise "OSError"
  else Ret tt (set_fs (<[path := File text]> (fs w)) w).

(** [__check_u12_file]; the result is the new value of [self.u12]. *)
Definition check_u12_file (self : toga) (u12_arg : option string)
    (ref_bed : string) (t_in_bed : gset string) (w : world)
  : outcome (option string) :=
  if negb (truthy u12_arg) then Ret None w
  else
    let arg := default "" u12_arg in
    let u12_out := path_join (wd self) "u12_data.txt" in
    match fs w !! arg with
    | Some (File content) =>
        match u12_scan u12_out t_in_bed 1 (readlines content) with
        | inl msg => die self msg 1 w
        | inr [] =>
            die self
              ("Error! No lines left in the " +:+ arg +:+
               " file after filter." +:+
               "Please check that transcript IDs in this file and bed " +:+
               ref_bed +:+ " are consistent") 1 w
        | inr kept =>
            andthen (write_file u12_out (join "" kept) w) (fun _ w1 =>
            Ret (Some u12_out) (eprint "U12 file is correct" w1))
        end
    | _ => Raise "OSError"
    end.

(** [__check_isoforms_file]; the result is the new value of
    [self.isoforms]. *)
Definition check_isoforms_file (self : toga) (isoforms_arg : option string)
    (t_in_bed : gset string) (w : world) : outcome (option string) :=
  if negb (truthy isoforms_arg) then Ret None w
  else
    let arg := default "" isoforms_arg in
    let iso_out := path_join (wd self) "isoforms.tsv" in
    match fs w !! arg with
    | Some (File content) =>
        match readlines content with
        | [] => Raise "StopIteration"
        | header :: body =>
            match iso_scan iso_out t_in_bed 2 body with
            | inl msg => die self msg 1 w
            | inr kept =>
                let u_in_b :=
                  t_in_bed ∖ list_to_set (List.map snd kept) in
                if negb (size u_in_b =? 0)%nat then
                  die self
                    ("Error! There are " +:+ pretty (size u_in_b) +:+
                     " transcripts in the bed file absent in the isoforms" +:+
                     " file! There are the transcripts (first 100):" +:+
                     nl_join (take 100 (elements u_in_b))) 1 w
                else
                  andthen (write_file iso_out
                             (join "" (header :: List.map fst kept)) w)
                    (fun _ w1 => Ret (Some iso_out)
                                   (eprint "Isoforms file is OK" w1))
            end
        end
    | _ => Raise "OSError"
    end.

End Checks.

(** The files [__check_completeness] wants, in its order. *)
Definition files_must_be (location : string) : list string :=
  [path_join location "configure.sh";
   path_join (path_join location "modules") "chain_bst_index.py";
   path_join (path_join location "modules") "bed_hdf5_index.py";
   path_join location "split_chain_jobs.py";
   path_join (path_join location "modules") "merge_chains_output.py";
   path_join (path_join location "modules") "classify_chains.py";
   path_join location "split_exon_realign_jobs.py";
   path_join (path_join location "modules") "merge_cesar_output.py";
   path_join (path_join location "modules") "gene_losses_summary.py";
   path_join (path_join location "modules") "orthology_type_map.py"].

Fixpoint check_files (self : toga) (files : list string) (w : world)
  : outcome unit :=
  match files with
  | [] => Ret tt w
  | f :: rest =>
      if isfile (fs w) f then check_files self rest w
      else die self ("Error! File " +:+ f +:+ " not found!") 1 w
  end.

(** [__check_completeness] *)
Definition check_completeness (self : toga) (w : world) : outcome unit :=
  check_files self (files_must_be (LOCATION self)) w.

Definition sample_bed : gset string := {[ "T1"; "T2" ]}.

Definition sample_u12 : string :=
  "T1	3	A
T9	x	Q
T2	12	D
".

Definition say (msg : string) (w : world) : world :=
  eputs (msg +:+ "
") w.

End Gate.

(** ** Pushing the job lists ([Toga.__run_cesar_jobs], the first loop) *)

Module Push.
Import Text Toga Buckets.

(** A line without its newline, as [grep] sees it. *)
Fixpoint chomp (l : string) : string :=
  match l with
  | EmptyString => EmptyString
  | String c EmptyString =>
      if Ascii.eqb c newline then EmptyString else l
  | String c l' => String c (chomp l')
  end.

(** [s.replace(old, new)] for a non-empty [old]: every occurrence, from
    the left, without overlap. *)
Fixpoint replace_go (old new : string) (skip : nat) (s : string) : string :=
  match s with
  | EmptyString => EmptyString
  | String c s' =>
      match skip with
      | S k => replace_go old new k s'
      | O => if startswith old s
             then new +:+ replace_go old new (String.length old - 1) s'
             else String c (replace_go old new 0 s')
      end
  end.

Definition str_replace (old new s : string) : string :=
  replace_go old new 0 s.

(** The attributes the loop reads beside those of [toga]. *)
Record nf_settings := {
  local_executor : bool;
  cesar_config_template : string;
  cesar_combined : string;
  nextflow_dir : string;
  NF_EXECUTE : string;
  timestamp : string
}.

(** A process started with [Popen]: its command and directory. *)
Record launch := Launch { l_cmd : string; l_cwd : string }.

(** What the loop changes: the files, [self.temp_files], [project_paths]
    and [processes].  The messages it prints and the pause after each
    launch are left out. *)
Record push_state := PushState {
  p_fs : gmap string node;
  p_temp : list string;
  p_projects : list string;
  p_launched : list launch
}.

Definition config_path (self : toga) (b : Z) : string :=
  path_join (wd self) ("cesar_config_" +:+ pretty b +:+ "_queue.nf").

Definition joblist_path (self : toga) (b : Z) : string :=
  path_join (wd self) ("cesar_joblist_queue_" +:+ pretty b +:+ ".txt").

Definition project_path (self : toga) (cfg : nf_settings) (b : Z) : string :=
  path_join (nextflow_dir cfg)
    (project_name self +:+ "_cesar_at_" +:+ timestamp cfg +:+ "_q_" +:+
     pretty b).

(** The lines [cat combined] feeds to [grep]; none if there is no such
    file. *)
Definition combined_lines (cfg : nf_settings) (f : gmap string node)
  : list string :=
  match f !! cesar_combined cfg with
  | Some (File c) => List.map chomp (readlines c)
  | _ => []
  end.

(** What [grep] prints: each selected line and a newline. *)
Definition grep_output (l : list string) : string :=
  join "" (List.map (fun x => x +:+ "
") l).

Section Loop.

(** [os.path.abspath] *)
Variable abspath : string -> string.

Variable self : toga.
Variable cfg : nf_settings.

(** One turn of the loop, for bucket [b]; [None] when an exception escapes
    (a directory where a file is to be written, a file where the log
    directory is to be made). *)
Definition push_one (st : push_state) (b : Z) : option push_state :=
  let mem_lim := if b =? 0 then cesar_mem_limit self else b in
  (* the config file of the bucket, on a cluster *)
  let st1 :=
    if local_executor cfg then Some (st, None)
    else if isdir (p_fs st) (config_path self b) then None
    else Some
      ({| p_fs := <[config_path self b :=
                     File (str_replace "${_MEMORY_}" (pretty mem_lim)
                             (cesar_config_template cfg))]> (p_fs st);
          p_temp := p_temp st ++ [config_path self b];
          p_projects := p_projects st;
          p_launched := p_launched st |},
       Some (abspath (config_path self b))) in
  match st1 with
  | None => None
  | Some (s1, config_file) =>
      (* the job list of the bucket *)
      let st2 :=
        if b =? 0 then Some (Some (s1, abspath (cesar_combined cfg)))
        else match grep_bucket b (combined_lines cfg (p_fs s1)) with
             | [] => Some None
             | tasks =>
                 if isdir (p_fs s1) (joblist_path self b) then None
                 else Some (Some
                   ({| p_fs := <[joblist_path self b :=
                                  File (grep_output tasks)]> (p_fs s1);
                       p_temp := p_temp s1 ++ [joblist_path self b];
                       p_projects := p_projects s1;
                       p_launched := p_launched s1 |},
                    abspath (joblist_path self b)))
             end in
      match st2 with
      | None => None
      | Some None => Some s1      (* no jobs in this bucket: continue *)
      | Some (Some (s2, joblist)) =>
          let dir := project_path self cfg b in
          if isfile (p_fs s2) dir then None
          else
            let f3 := if isdir (p_fs s2) dir then p_fs s2
                      else <[dir := Dir]> (p_fs s2) in
            let cmd := "nextflow " +:+ NF_EXECUTE cfg +:+ " --joblist " +:+
                       joblist +:+
                       match config_file with
                       | Some c => " -c " +:+ c
                       | None => ""
                       end in
            Some {| p_fs := f3;
                    p_temp := p_temp s2;
                    p_projects := p_projects s2 ++ [dir];
                    p_launched := p_launched s2 ++ [Launch cmd dir] |}
      end
  end.

Fixpoint push_all (st : push_state) (buckets : list Z) : option push_state :=
  match buckets with
  | [] => Some st
  | b :: bs =>
      match push_one st b with
      | None => None
      | Some st' => push_all st' bs
      end
  end.

End Loop.

(** [self] after the loop has appended to [self.temp_files]. *)
Definition with_temp_files (l : list string) (self : toga) : toga :=
  {| LOCATION := LOCATION self; wd := wd self;
     project_name := project_name self; rejected_dir := rejected_dir self;
     chain_file := chain_file self;
     chain_results_df := chain_results_df self;
     gene_loss_data := gene_loss_data self;
     cesar_results := cesar_results self;
     cesar_buckets := cesar_buckets self;
     cesar_mem_limit := cesar_mem_limit self;
     stop_at_chain_class := stop_at_chain_class self;
     time_log := time_log self; keep_temp := keep_temp self;
     temp_files := l |}.

Definition start (self : toga) (f : gmap string node) : push_state :=
  {| p_fs := f; p_temp := temp_files self; p_projects := [];
     p_launched := [] |}.

Definition sample_cfg : nf_settings :=
  {| local_executor := false;
     cesar_config_template := "process.memory = '${_MEMORY_}G'";
     cesar_combined := "/wd/cesar_combined";
     nextflow_dir := "/nf";
     NF_EXECUTE := "/opt/toga/execute_joblist.nf";
     timestamp := "8344169" |}.

Definition sample_fs : gmap string node :=
  <["/wd/cesar_combined" := File "cesar jobs/part_2.bdb
cesar jobs/part_5.bdb
cesar jobs/part_10.bdb
"]> (fs sample_world).

End Push.

(** ** More sample inputs *)

Module MoreSamples.
Import Text Classify Samples Toga Gate Push.

(** gene G1, chain 9: synteny 0, so the row is dropped. *)
Definition row_dropped : row :=
  mk_row "G1" 9 0 80%float 100%float 4 0.5%float.

Definition sample_toga_keeping : toga :=
  {| LOCATION := "/opt/toga"; wd := "/wd"; project_name := "hg38";
     rejected_dir := "/wd/rejected"; chain_file := "/wd/genome_alignment.chain";
     chain_results_df := "/wd/chain_results_df.tsv";
     gene_loss_data := "/wd/inact_mut_data";
     cesar_results := "/wd/cesar_results";
     cesar_buckets := "0"; cesar_mem_limit := 16;
     stop_at_chain_class := false; time_log := None; keep_temp := true;
     temp_files := ["/wd/genome_alignment.chain"; "/wd/cesar_jobs"] |}.

Definition sample_args : args :=
  default_args "in/hg38.mm10.all.chain.gz" "hg38.bed" "hg38" "mm10".

Definition with_file (path text : string) (w : world) : world :=
  set_fs (<[path := File text]> (fs w)) w.

Definition world_with_u12 : world :=
  with_file "/in/u12.tsv" sample_u12 sample_world.

(** The second line lacks its third field. *)
Definition world_with_bad_u12 : world :=
  with_file "/in/u12.tsv" "T1	3	A
T9	7
" sample_world.

Definition world_with_isoforms : world :=
  with_file "/in/iso.tsv" "gene	transcript
G1	T1
G1	T2
G2	T9
" sample_world.

End MoreSamples.

(** * Proofs *)

(** ** Strings *)

Module Str.

Lemma list_ascii_app (s t : string) :
  list_ascii_of_string (s +:+ t) =
  list_ascii_of_string s ++ list_ascii_of_string t.
Proof. induction s as [|a s IH]; simpl; [done|]. by rewrite IH. Qed.

Lemma list_ascii_inj (s t : string) :
  list_ascii_of_string s = list_ascii_of_string t -> s = t.
Proof.
  intros H. rewrite <- (string_of_list_ascii_of_string s),
    <- (string_of_list_ascii_of_string t). by rewrite H.
Qed.

Lemma app_inv_tail (s1 s2 t : string) : s1 +:+ t = s2 +:+ t -> s1 = s2.
Proof.
  intros H. apply list_ascii_inj.
  apply (f_equal list_ascii_of_string) in H. rewrite !list_ascii_app in H.
  by apply List.app_inv_tail in H.
Qed.

End Str.

(** ** Facts about binary64 comparison and division *)

Module F64.

Lemma eqb_zero_not_pos (x : float) :
  PrimFloat.eqb x 0%float = true -> PrimFloat.ltb 0%float x = false.
Proof.
  rewrite FloatAxioms.eqb_spec, FloatAxioms.ltb_spec.
  replace (Prim2SF 0%float) with (S754_zero false) by reflexivity.
  unfold SFeqb, SFltb, SFcompare.
  destruct (Prim2SF x) as [s|s| |s m e]; try destruct s;
    try reflexivity; try discriminate.
Qed.

Lemma pos_not_eqb_zero (x : float) :
  PrimFloat.ltb 0%float x = true -> PrimFloat.eqb x 0%float = false.
Proof.
  intros H. destruct (PrimFloat.eqb x 0%float) eqn:E; [|reflexivity].
  apply eqb_zero_not_pos in E. congruence.
Qed.

Lemma nonneg_not_minus_one (p : float) :
  PrimFloat.leb 0%float p = true -> PrimFloat.eqb p (-1)%float = false.
Proof.
  rewrite FloatAxioms.eqb_spec, FloatAxioms.leb_spec.
  replace (Prim2SF 0%float) with (S754_zero false) by reflexivity.
  replace (Prim2SF (-1)%float)
    with (S754_finite true 4503599627370496 (-52)) by reflexivity.
  unfold SFeqb, SFleb, SFcompare.
  destruct (Prim2SF p) as [s|s| |s m e]; try destruct s;
    try reflexivity; try discriminate.
Qed.

Lemma div_by_zero_infinite (x y : float) :
  PrimFloat.ltb 0%float x = true -> PrimFloat.eqb y 0%float = true ->
  PrimFloat.div x y = infinity \/ PrimFloat.div x y = neg_infinity.
Proof.
  rewrite FloatAxioms.eqb_spec, FloatAxioms.ltb_spec.
  replace (Prim2SF 0%float) with (S754_zero false) by reflexivity.
  intros Hx Hy.
  rewrite <- (SF2Prim_Prim2SF (PrimFloat.div x y)), div_spec.
  unfold SFeqb, SFltb, SFcompare in *. unfold SF64div, SFdiv.
  destruct (Prim2SF x) as [s|s| |s m e], (Prim2SF y) as [s'|s'| |s' m' e'];
    try destruct s; try destruct s'; try discriminate; auto.
Qed.

Lemma compare_antisym (x y : spec_float) :
  SFcompare y x = option_map CompOpp (SFcompare x y).
Proof.
  destruct x as [s|s| |s m e], y as [s'|s'| |s' m' e']; simpl;
    try destruct s; try destruct s'; try reflexivity.
  - change (PosDef.Pos.compare_cont Eq m' m) with (Pos.compare m' m).
    change (PosDef.Pos.compare_cont Eq m m') with (Pos.compare m m').
    rewrite (Z.compare_antisym e' e), (Pos.compare_antisym m' m).
    destruct (e' ?= e)%Z; simpl; try reflexivity.
    by destruct (m' ?= m)%positive.
  - change (PosDef.Pos.compare_cont Eq m' m) with (Pos.compare m' m).
    change (PosDef.Pos.compare_cont Eq m m') with (Pos.compare m m').
    rewrite (Z.compare_antisym e' e), (Pos.compare_antisym m' m).
    destruct (e' ?= e)%Z; simpl; try reflexivity.
    by destruct (m' ?= m)%positive.
Qed.

Lemma leb_not_ltb (x y : float) :
  PrimFloat.leb y x = true -> PrimFloat.ltb x y = false.
Proof.
  rewrite FloatAxioms.leb_spec, FloatAxioms.ltb_spec.
  unfold SFleb, SFltb. rewrite (compare_antisym (Prim2SF x) (Prim2SF y)).
  by destruct (SFcompare (Prim2SF x) (Prim2SF y)) as [[| |]|].
Qed.

Lemma div_zero_zero_nan (x y : float) :
  PrimFloat.eqb x 0%float = true -> PrimFloat.eqb y 0%float = true ->
  is_nan (PrimFloat.div x y) = true.
Proof.
  unfold is_nan. rewrite !FloatAxioms.eqb_spec, div_spec.
  replace (Prim2SF 0%float) with (S754_zero false) by reflexivity.
  unfold SFeqb, SFcompare, SF64div, SFdiv.
  destruct (Prim2SF x) as [s|s| |s m e], (Prim2SF y) as [s'|s'| |s' m' e'];
    try destruct s; try destruct s'; try discriminate; reflexivity.
Qed.

Lemma nan_compares_false (x y : float) :
  is_nan x = true ->
  PrimFloat.eqb x y = false /\ PrimFloat.ltb x y = false.
Proof.
  unfold is_nan. rewrite negb_true_iff.
  rewrite !FloatAxioms.eqb_spec, FloatAxioms.ltb_spec.
  unfold SFeqb, SFltb, SFcompare.
  destruct (Prim2SF x) as [s|s| |s m e]; try destruct s; try discriminate;
    try (intros _; by destruct (Prim2SF y)).
  all: change (PosDef.Pos.compare_cont Eq m m) with (Pos.compare m m);
    rewrite Z.compare_refl, Pos.compare_refl; discriminate.
Qed.

Lemma is_nan_eqb_self (x : float) :
  is_nan x = false -> PrimFloat.eqb x x = true.
Proof. unfold is_nan. destruct (PrimFloat.eqb x x); easy. Qed.

End F64.

(** ** Facts about the buckets *)

Module BucketFacts.
Import Buckets.

Lemma bucket_tasks_nonzero (b : Z) (combined : list string) :
  b <> 0 ->
  default [] (bucket_tasks b combined) = grep_bucket b combined.
Proof.
  intros Hb. unfold bucket_tasks.
  destruct (Z.eqb_spec b 0); [done|].
  by destruct (grep_bucket b combined).
Qed.

Lemma pushed_concat (buckets : list Z) (combined : list string) :
  concat (List.map snd (pushed_joblists buckets combined)) =
  concat (List.map (fun b => default [] (bucket_tasks b combined)) buckets).
Proof.
  induction buckets as [|b bs IH]; simpl; [done|].
  destruct (bucket_tasks b combined) as [l|]; simpl; by rewrite IH.
Qed.

(** Adding one line to the job list adds it once to every bucket that
    selects it. *)
Lemma grep_concat_cons (buckets : list Z) (x : string) (l : list string) :
  concat (List.map (fun b => grep_bucket b (x :: l)) buckets) ≡ₚ
  replicate (selected_by buckets x) x ++
  concat (List.map (fun b => grep_bucket b l) buckets).
Proof.
  unfold selected_by.
  induction buckets as [|b bs IH]; simpl; [done|].
  unfold grep_bucket at 1. simpl.
  destruct (grep_match (bucket_pattern b) x); simpl.
  - fold (grep_bucket b l). rewrite IH. f_equiv.
    rewrite !app_assoc. f_equiv. apply Permutation_app_comm.
  - fold (grep_bucket b l). rewrite IH.
    rewrite !app_assoc. f_equiv. apply Permutation_app_comm.
Qed.

(** C6 (amended).  If no declared bucket is 0 and every line of the job
    list is selected by exactly one of the declared buckets, then the job
    lists pushed, taken together, are the combined job list: the same lines,
    each as often as there. *)
Theorem buckets_partition_jobs (buckets : list Z) (combined : list string) :
  ~ In 0 buckets ->
  (forall line, In line combined -> selected_by buckets line = 1%nat) ->
  concat (List.map snd (pushed_joblists buckets combined)) ≡ₚ combined.
Proof.
  intros H0 Hone. rewrite pushed_concat.
  erewrite List.map_ext_in.
  2: { intros b Hb. apply bucket_tasks_nonzero. intros ->. done. }
  clear H0. induction combined as [|x l IH].
  - induction buckets as [|b bs IHb]; simpl; [done|]. by rewrite IHb.
  - rewrite grep_concat_cons, (Hone x) by (by left). simpl. f_equiv.
    apply IH. intros line Hl. apply Hone. by right.
Qed.

Lemma buckets_partition_jobs_witness :
  ~ In 0 [2; 5; 10] /\
  (forall line, In line sample_jobs -> selected_by [2; 5; 10] line = 1%nat) /\
  concat (List.map snd (pushed_joblists [2; 5; 10] sample_jobs)) ≡ₚ sample_jobs.
Proof.
  assert (~ In 0 [2; 5; 10]) as H1.
  { simpl. intros [H|[H|[H|[]]]]; discriminate. }
  assert (forall line, In line sample_jobs ->
                       selected_by [2; 5; 10] line = 1%nat) as H2.
  { intros line [<-|[<-|[<-|[]]]]; reflexivity. }
  split_and!; [exact H1|exact H2|].
  exact (buckets_partition_jobs [2; 5; 10] sample_jobs H1 H2).
Defined.

(** C6, as stated, fails: every declared bucket finds its tag in the job
    list, yet the job tagged for an undeclared bucket is pushed nowhere. *)
Lemma undeclared_bucket_job_lost :
  (forall b, In b [2; 5] ->
     exists line, In line sample_jobs /\
                  grep_match (bucket_pattern b) line = true) /\
  concat (List.map snd (pushed_joblists [2; 5] sample_jobs))
    = ["cesar jobs/part_2.bdb"; "cesar jobs/part_5.bdb"] /\
  ~ concat (List.map snd (pushed_joblists [2; 5] sample_jobs)) ≡ₚ sample_jobs.
Proof.
  split_and!.
  - intros b [<-|[<-|[]]].
    + exists "cesar jobs/part_2.bdb". split; [by left|reflexivity].
    + exists "cesar jobs/part_5.bdb". split; [right; by left|reflexivity].
  - reflexivity.
  - intros H. apply Permutation_length in H. discriminate.
Qed.

End BucketFacts.

(** ** Facts about the classifier *)

Module ClassifyFacts.
Import Classify.

(** *** Lists *)

Lemma NoDup_map_In_inj {A B} (f : A -> B) (l : list A) (x y : A) :
  NoDup (List.map f l) -> In x l -> In y l -> f x = f y -> x = y.
Proof.
  induction l as [|a l IH]; simpl; [tauto|].
  intros Hnd Hx Hy Hf. apply NoDup_cons in Hnd as [Hna Hnd].
  destruct Hx as [->|Hx], Hy as [->|Hy]; auto.
  - exfalso. apply Hna. rewrite Hf. apply list_elem_of_In, in_map, Hy.
  - exfalso. apply Hna. rewrite <- Hf. apply list_elem_of_In, in_map, Hx.
Qed.

Lemma NoDup_map_filter {A B} (f : A -> B) (p : A -> bool) (l : list A) :
  NoDup (List.map f l) -> NoDup (List.map f (List.filter p l)).
Proof.
  induction l as [|a l IH]; simpl; [auto|].
  intros Hnd. apply NoDup_cons in Hnd as [Hna Hnd].
  destruct (p a); simpl; [|auto].
  apply NoDup_cons. split; [|auto].
  intros Hin. apply Hna.
  apply list_elem_of_In, in_map_iff in Hin as (x & Hx & Hin).
  apply filter_In in Hin as [Hin _].
  rewrite <- Hx. apply list_elem_of_In, in_map, Hin.
Qed.

(** *** The [defaultdict] of chains per gene *)

Lemma dd_fold_get {A} (key : A -> string) (val : A -> Z) (l : list A)
    (d : gmap string (list Z)) (g : string) :
  dd_get (fold_left (fun d r => dd_append d (key r) (val r)) l d) g =
  dd_get d g ++
  List.map val (List.filter (fun r => bool_decide (key r = g)) l).
Proof.
  revert d. induction l as [|a l IH]; intros d; simpl.
  - by rewrite app_nil_r.
  - rewrite IH. unfold dd_get at 1, dd_append.
    case_bool_decide as Hk.
    + subst g. rewrite lookup_insert_eq. simpl.
      unfold dd_get. by rewrite <- app_assoc.
    + by rewrite lookup_insert_ne.
Qed.

Lemma gene_to_pp_genes_get (df : list row) (g : string) :
  dd_get (gene_to_pp_genes df) g =
  List.map chain
    (List.filter (fun r => bool_decide (gene r = g)) (p_pseudogenes df)).
Proof. unfold gene_to_pp_genes. by rewrite dd_fold_get. Qed.

Lemma gene_trans_get (df : list row) (g : string) :
  dd_get (gene_trans df) g =
  List.map chain
    (List.filter (fun r => bool_decide (gene r = g)) (trans_lines df)).
Proof. unfold gene_trans. by rewrite dd_fold_get. Qed.

Lemma in_pp_genes (df : list row) (g : string) (c : Z) :
  In c (dd_get (gene_to_pp_genes df) g) <->
  exists r, In r df /\ is_p_pseudogene r = true /\ gene r = g /\ chain r = c.
Proof.
  rewrite gene_to_pp_genes_get, in_map_iff. unfold p_pseudogenes. split.
  - intros (r & Hc & Hin). apply filter_In in Hin as [Hin Hg].
    apply filter_In in Hin as [Hin Hp].
    apply bool_decide_eq_true in Hg. eauto.
  - intros (r & Hin & Hp & Hg & Hc). exists r. split; [done|].
    apply filter_In. split; [apply filter_In; auto|].
    by apply bool_decide_eq_true.
Qed.

(** *** The aggregation loop *)

Lemma fold_visit_row_lookup thr pp (res : list score)
    (d : gmap string classes) (g : string) :
  fold_left (visit_row thr pp) res d !! g =
  (fun k => fold_left (visit_if thr pp g) res k) <$> (d !! g).
Proof.
  revert d. induction res as [|s res IH]; intros d; simpl.
  - by destruct (d !! g).
  - rewrite IH. unfold visit_row.
    destruct (decide (s_gene s = g)) as [Hg|Hg].
    + subst g. rewrite lookup_alter_eq.
      destruct (d !! s_gene s); simpl; [|done].
      do 2 f_equal. unfold visit_if. by rewrite bool_decide_eq_true_2.
    + rewrite lookup_alter_ne by done.
      destruct (d !! g); simpl; [|done].
      do 2 f_equal. unfold visit_if. by rewrite bool_decide_eq_false_2.
Qed.

Lemma aggregate_lookup thr pp (res : list score) (g : string) :
  aggregate thr pp res !! g =
  if bool_decide (g ∈ genes_of res)
  then Some (fold_left (visit_if thr pp g) res no_classes)
  else None.
Proof.
  unfold aggregate. rewrite fold_visit_row_lookup, lookup_gset_to_gmap.
  case_bool_decide as Hg.
  - by rewrite option_guard_True.
  - by rewrite option_guard_False.
Qed.

Lemma elem_of_genes_of (res : list score) (g : string) :
  g ∈ genes_of res <-> exists s, In s res /\ s_gene s = g.
Proof.
  unfold genes_of. rewrite elem_of_list_to_set, list_elem_of_In, in_map_iff.
  split; intros (s & H1 & H2); exists s; auto.
Qed.

Lemma set_pp_lists pp k :
  ORTH (set_pp pp k) = ORTH k /\ PARA (set_pp pp k) = PARA k /\
  TRANS (set_pp pp k) = TRANS k.
Proof. by destruct pp. Qed.

Lemma fold_visit_if_lists thr pp g (res : list score) (k : classes) :
  let k' := fold_left (visit_if thr pp g) res k in
  ORTH k' = ORTH k ++ chains_of thr VOrth g res /\
  PARA k' = PARA k ++ chains_of thr VPara g res /\
  TRANS k' = TRANS k ++ chains_of thr VTrans g res.
Proof.
  revert k. induction res as [|s res IH]; intros k; simpl.
  - unfold chains_of. simpl. by rewrite !app_nil_r.
  - destruct (IH (visit_if thr pp g k s)) as (HO & HP & HT).
    rewrite HO, HP, HT. unfold chains_of, visit_if, visit. simpl.
    case_bool_decide as Hg; simpl; [|done].
    destruct (set_pp_lists (dd_get pp (s_gene s))
                (add_chain (decide_class thr (pred s)) (s_chain s) k))
      as (-> & -> & ->).
    destruct (decide_class thr (pred s)); simpl; by rewrite <- ?app_assoc.
Qed.

Lemma fold_visit_if_pp thr pp g (res : list score) (k : classes) :
  P_PGENES (fold_left (visit_if thr pp g) res k) =
  match dd_get pp g with
  | [] => P_PGENES k
  | _ => if existsb (fun s => bool_decide (s_gene s = g)) res
         then dd_get pp g else P_PGENES k
  end.
Proof.
  revert k. induction res as [|s res IH]; intros k; simpl.
  - by destruct (dd_get pp g).
  - rewrite IH. unfold visit_if, visit.
    case_bool_decide as Hg; simpl; [subst g|done].
    destruct (dd_get pp (s_gene s)) as [|c l] eqn:E; simpl.
    + by destruct (decide_class thr (pred s)).
    + by destruct (existsb _ res).
Qed.

(** *** Where each input row goes *)

Lemma pp_not_dropped (df : list row) (r : row) :
  In r (drop_p_pseudogenes df) <-> In r df /\ is_p_pseudogene r = false.
Proof.
  unfold drop_p_pseudogenes. rewrite filter_In, negb_true_iff. tauto.
Qed.

Lemma in_hard_filter (df : list row) (r : row) :
  In r (hard_filter df) <->
  In r df /\ is_p_pseudogene r = false /\
  PrimFloat.ltb 0%float (exon_cover r) = true /\ (0 <? synt r) = true.
Proof.
  unfold hard_filter. rewrite !filter_In, pp_not_dropped. tauto.
Qed.

Lemma in_trans_lines (df : list row) (r : row) :
  In r (trans_lines df) <->
  In r df /\ is_p_pseudogene r = false /\
  PrimFloat.eqb (exon_cover r) 0%float = true /\ (1 <? synt r) = true.
Proof.
  unfold trans_lines. rewrite !filter_In, pp_not_dropped. tauto.
Qed.

Lemma hard_filter_not_trans (df : list row) (r : row) :
  In r (hard_filter df) -> ~ In r (trans_lines df).
Proof.
  rewrite in_hard_filter, in_trans_lines.
  intros (_ & _ & Hpos & _) (_ & _ & Hz & _).
  apply F64.eqb_zero_not_pos in Hz. congruence.
Qed.

Section WithModels.

Variable log10 : float -> float.
Variable se_model me_model : list float -> float.

Local Abbreviation derive := (derive log10).
Local Abbreviation overall_result := (overall_result log10 se_model me_model).
Local Abbreviation gene_class_chains := (gene_class_chains log10 se_model me_model).
Local Abbreviation genes_missing := (genes_missing log10 se_model me_model).
Local Abbreviation classify_chains := (classify_chains log10 se_model me_model).

Lemma in_df_se (df : list row) (f : frow) :
  In f (df_se log10 df) <->
  exists r, In r (hard_filter df) /\ ex_num r = 1 /\ f = derive r.
Proof.
  unfold df_se, df_final. rewrite filter_In, in_map_iff. split.
  - intros ((r & <- & Hin) & Hs). exists r. repeat split; auto.
    simpl in Hs. destruct (ex_num r =? 1) eqn:E; [lia|].
    vm_compute in Hs. discriminate.
  - intros (r & Hin & He & ->). split; [eauto|].
    simpl. rewrite He. reflexivity.
Qed.

Lemma in_df_me (df : list row) (f : frow) :
  In f (df_me log10 df) <->
  exists r, In r (hard_filter df) /\ ex_num r <> 1 /\ f = derive r.
Proof.
  unfold df_me, df_final. rewrite filter_In, in_map_iff. split.
  - intros ((r & <- & Hin) & Hs). exists r. repeat split; auto.
    simpl in Hs. destruct (ex_num r =? 1) eqn:E; [|lia].
    vm_compute in Hs. discriminate.
  - intros (r & Hin & He & ->). split; [eauto|].
    simpl. destruct (ex_num r =? 1) eqn:E; [lia|reflexivity].
Qed.

(** The score the pipeline gives a row that reaches a model. *)
Definition model_score (r : row) : float :=
  if ex_num r =? 1 then se_model (X_se (derive r))
  else me_model (X_me (derive r)).

Lemma in_scored (df : list row) (s : score) :
  In s (se_result log10 se_model df ++ me_result log10 me_model df) <->
  exists r, In r (hard_filter df) /\
            s = Score (gene r) (chain r) (model_score r).
Proof.
  rewrite in_app_iff. unfold se_result, me_result, model_score.
  rewrite !in_map_iff. split.
  - intros [(f & <- & Hf)|(f & <- & Hf)].
    + apply in_df_se in Hf as (r & Hin & He & ->). exists r. split; [done|].
      simpl. by rewrite He.
    + apply in_df_me in Hf as (r & Hin & He & ->). exists r. split; [done|].
      simpl. destruct (ex_num r =? 1) eqn:E; [lia|done].
  - intros (r & Hin & ->). destruct (ex_num r =? 1) eqn:E.
    + left. exists (derive r). split; [done|].
      apply in_df_se. exists r. split_and!; [done|lia|done].
    + right. exists (derive r). split; [done|].
      apply in_df_me. exists r. split_and!; [done|lia|done].
Qed.

Lemma in_trans_result (df : list row) (s : score) :
  In s (trans_result df) <->
  exists r, In r (trans_lines df) /\ s = Score (gene r) (chain r) (-1)%float.
Proof.
  unfold trans_result. rewrite in_map_iff.
  split; intros (r & H1 & H2); exists r; auto.
Qed.

Lemma in_overall (df : list row) (s : score) :
  In s (overall_result df) <->
  (exists r, In r (hard_filter df) /\
             s = Score (gene r) (chain r) (model_score r)) \/
  (exists r, In r (trans_lines df) /\
             s = Score (gene r) (chain r) (-1)%float).
Proof.
  unfold Classify.overall_result.
  rewrite app_assoc, in_app_iff, in_scored, in_trans_result. tauto.
Qed.

Lemma genes_of_overall (df : list row) (g : string) :
  g ∈ genes_of (overall_result df) <-> classifiable df g.
Proof.
  rewrite elem_of_genes_of. unfold classifiable. split.
  - intros (s & Hs & <-). apply in_overall in Hs as [(r & Hr & ->)|(r & Hr & ->)];
      exists r; auto.
  - intros (r & [Hr|Hr] & <-).
    + exists (Score (gene r) (chain r) (model_score r)). split; [|done].
      apply in_overall. left. eauto.
    + exists (Score (gene r) (chain r) (-1)%float). split; [|done].
      apply in_overall. right. eauto.
Qed.

Lemma classifiable_in_table (df : list row) (g : string) :
  classifiable df g -> In g (List.map gene df).
Proof.
  intros (r & [Hr|Hr] & <-); apply in_map.
  - by apply in_hard_filter in Hr as [? _].
  - by apply in_trans_lines in Hr as [? _].
Qed.

(** The entry of a gene in the class table, list by list. *)
Lemma table_entry thr (df : list row) (g : string) (k : classes) :
  gene_class_chains thr df !! g = Some k ->
  classifiable df g /\
  ORTH k = chains_of thr VOrth g (overall_result df) /\
  PARA k = chains_of thr VPara g (overall_result df) /\
  TRANS k = chains_of thr VTrans g (overall_result df) /\
  P_PGENES k = dd_get (gene_to_pp_genes df) g.
Proof.
  unfold Classify.gene_class_chains. rewrite aggregate_lookup.
  case_bool_decide as Hg; [|done]. intros [= <-].
  split; [by apply genes_of_overall|].
  destruct (fold_visit_if_lists thr (gene_to_pp_genes df) g
              (overall_result df) no_classes) as (-> & -> & ->).
  split_and!; try done.
  rewrite fold_visit_if_pp. simpl.
  destruct (dd_get (gene_to_pp_genes df) g) as [|c l] eqn:E; [done|].
  apply elem_of_genes_of in Hg as (s & Hs & Hsg).
  assert (existsb (fun s => bool_decide (s_gene s = g)) (overall_result df) = true)
    as ->; [|done].
  apply existsb_exists. exists s. split; [done|].
  by apply bool_decide_eq_true.
Qed.

Lemma table_has_entry thr (df : list row) (g : string) :
  classifiable df g -> is_Some (gene_class_chains thr df !! g).
Proof.
  intros Hc. unfold Classify.gene_class_chains. rewrite aggregate_lookup.
  rewrite bool_decide_eq_true_2; [eauto|]. by apply genes_of_overall.
Qed.

Lemma table_no_entry thr (df : list row) (g : string) :
  ~ classifiable df g -> gene_class_chains thr df !! g = None.
Proof.
  intros Hc. unfold Classify.gene_class_chains. rewrite aggregate_lookup.
  rewrite bool_decide_eq_false_2; [done|]. by rewrite genes_of_overall.
Qed.

Lemma in_chains_of thr v g (res : list score) (c : Z) :
  In c (chains_of thr v g res) <->
  exists s, In s res /\ s_gene s = g /\ s_chain s = c /\
            decide_class thr (pred s) = v.
Proof.
  unfold chains_of. rewrite in_map_iff. split.
  - intros (s & Hc & Hs). apply filter_In in Hs as [Hs Hb].
    apply andb_true_iff in Hb as [Hg Hv]. apply bool_decide_eq_true in Hg.
    exists s. split_and!; try done.
    by destruct (decide_class thr (pred s)), v.
  - intros (s & Hs & Hg & Hc & Hv). exists s. split; [done|].
    apply filter_In. split; [done|]. apply andb_true_iff. split.
    + by apply bool_decide_eq_true.
    + rewrite Hv. by destruct v.
Qed.

Lemma in_genes_missing (df : list row) (g : string) :
  In g (genes_missing df) <-> In g (List.map gene df) /\ ~ classifiable df g.
Proof.
  unfold Classify.genes_missing, init_genes_set.
  rewrite <- list_elem_of_In, elem_of_elements, elem_of_difference.
  rewrite elem_of_list_to_set, list_elem_of_In, genes_of_overall. tauto.
Qed.

Lemma rejected_line_inj (g g' : string) :
  rejected_line g = rejected_line g' -> g = g'.
Proof. unfold rejected_line. apply Str.app_inv_tail. Qed.

(** *** Processed pseudogenes *)

(** C1 (amended).  A row with [synt = 1], [cds_qlen > 0.95] and
    [ex_num > 1] never reaches a model and is no trans chain.  Whenever its
    gene has a row in the class table, that row lists the chain under
    P_PGENES, and under no other column unless a second, non-pseudogene row
    of the gene carries the same chain id.  The gene has a row in the table
    exactly when one of its rows is scored or is a trans chain: a gene whose
    rows are all pseudogene rows has none and is written to the rejected
    log. *)
Theorem pseudogene_row_recorded thr (df : list row) (r : row) :
  In r df -> is_p_pseudogene r = true ->
  ~ In r (hard_filter df) /\ ~ In r (trans_lines df) /\
  (forall k, gene_class_chains thr df !! gene r = Some k ->
     In (chain r) (P_PGENES k) /\
     ((forall r', In r' df -> gene r' = gene r -> chain r' = chain r ->
                  is_p_pseudogene r' = true) ->
      ~ In (chain r) (ORTH k ++ PARA k ++ TRANS k))) /\
  (is_Some (gene_class_chains thr df !! gene r) <-> classifiable df (gene r)) /\
  ((forall r', In r' df -> gene r' = gene r -> is_p_pseudogene r' = true) ->
   gene_class_chains thr df !! gene r = None /\
   In (rejected_line (gene r)) (List.map rejected_line (genes_missing df))).
Proof.
  intros Hin Hpp. split_and!.
  - rewrite in_hard_filter. intros (_ & Hn & _). congruence.
  - rewrite in_trans_lines. intros (_ & Hn & _). congruence.
  - intros k Hk. apply table_entry in Hk as (Hc & HO & HP & HT & HPP). split.
    + rewrite HPP. apply in_pp_genes. eauto.
    + intros Hall. rewrite HO, HP, HT, !in_app_iff, !in_chains_of.
      assert (forall s, In s (overall_result df) -> s_gene s = gene r ->
                        s_chain s = chain r -> False) as Hno.
      { intros s Hs Hg Hch.
        apply in_overall in Hs as [(r' & Hr' & ->)|(r' & Hr' & ->)];
          simpl in Hg, Hch.
        - apply in_hard_filter in Hr' as (Hr' & Hn & _).
          rewrite (Hall r' Hr' Hg Hch) in Hn. discriminate.
        - apply in_trans_lines in Hr' as (Hr' & Hn & _).
          rewrite (Hall r' Hr' Hg Hch) in Hn. discriminate. }
      intros [(s & Hs & Hg & Hch & _)|[(s & Hs & Hg & Hch & _)|
                                       (s & Hs & Hg & Hch & _)]]; eauto.
  - split.
    + intros [k Hk]. by apply table_entry in Hk as [? _].
    + apply table_has_entry.
  - intros Hall.
    assert (~ classifiable df (gene r)) as Hnc.
    { intros (r' & [Hr'|Hr'] & Hg).
      - apply in_hard_filter in Hr' as (Hr' & Hn & _).
        rewrite (Hall r' Hr' Hg) in Hn. discriminate.
      - apply in_trans_lines in Hr' as (Hr' & Hn & _).
        rewrite (Hall r' Hr' Hg) in Hn. discriminate. }
    split; [by apply table_no_entry|].
    apply in_map, in_genes_missing. split; [|done]. by apply in_map.
Qed.

(** *** Accepted or rejected *)

(** C3.  When a rejected-log path is given, every gene of the input table
    either has a row in the class table or a line in the rejected log with
    the fixed reason, and never both. *)
Theorem gene_accepted_xor_rejected (df : list row) raw_out rejected_path thr
    (g : string) :
  given rejected_path = true -> In g (List.map gene df) ->
  exists lines,
    rejected (classify_chains df raw_out rejected_path thr) = Some lines /\
    ((is_Some (class_table (classify_chains df raw_out rejected_path thr) !! g)
      /\ ~ In (rejected_line g) lines) \/
     (class_table (classify_chains df raw_out rejected_path thr) !! g = None
      /\ In (g +:+ tab +:+ "No classifiable chains" +:+ nl) lines)).
Proof.
  intros Hgiven Hg. unfold Classify.classify_chains. simpl. rewrite Hgiven.
  eexists. split; [done|].
  set (t := default default_annot_threshold thr).
  destruct (gene_class_chains t df !! g) as [k|] eqn:E.
  - left. split; [eauto|]. intros Hin.
    apply in_map_iff in Hin as (g' & Heq & Hin).
    apply rejected_line_inj in Heq as ->.
    apply in_genes_missing in Hin as [_ Hnc].
    apply table_entry in E as [Hc _]. done.
  - right. split; [done|].
    change (In (rejected_line g) (List.map rejected_line (genes_missing df))).
    apply in_map, in_genes_missing. split; [done|].
    intros Hc. apply (table_has_entry t) in Hc as [k Hk]. congruence.
Qed.

(** *** Trans chains *)

(** C4.  A row left after the removal of processed pseudogenes, with
    [exon_cover = 0] and [synt > 1], has its chain in the TRANS list of its
    gene and a raw score line with the score -1, and is not among the rows
    the models score. *)
Theorem trans_row_recorded (df : list row) raw_out rejected_path thr (r : row) :
  In r (drop_p_pseudogenes df) ->
  PrimFloat.eqb (exon_cover r) 0%float = true -> (1 <? synt r) = true ->
  (exists k,
     class_table (classify_chains df raw_out rejected_path thr) !! gene r
       = Some k /\ In (chain r) (TRANS k)) /\
  (given raw_out = true ->
   exists l, raw_scores (classify_chains df raw_out rejected_path thr) = Some l
             /\ In (Score (gene r) (chain r) (-1)%float) l) /\
  In (Score (gene r) (chain r) (-1)%float) (overall_result df) /\
  ~ In r (hard_filter df) /\
  ~ In (derive r) (df_se log10 df) /\ ~ In (derive r) (df_me log10 df).
Proof.
  intros Hin Hz Hs. apply pp_not_dropped in Hin as [Hin Hnp].
  assert (In r (trans_lines df)) as Ht by (by apply in_trans_lines).
  assert (In (Score (gene r) (chain r) (-1)%float) (overall_result df)) as Ho.
  { apply in_overall. right. eauto. }
  assert (forall r', In r' (hard_filter df) -> derive r' <> derive r) as Hne.
  { intros r' Hr' Heq. apply in_hard_filter in Hr' as (_ & _ & Hpos & _).
    apply (f_equal (fun f => exon_cover (base f))) in Heq. simpl in Heq.
    unfold fillna in Heq.
    destruct (is_nan (exon_cover r')) eqn:En.
    { unfold is_nan in En. apply negb_true_iff in En.
      rewrite FloatAxioms.ltb_spec in Hpos. rewrite FloatAxioms.eqb_spec in En.
      unfold SFltb, SFeqb, SFcompare in *.
      replace (Prim2SF 0%float) with (S754_zero false) in Hpos by reflexivity.
      destruct (Prim2SF (exon_cover r')) as [s|s| |s m e];
        try destruct s; try discriminate.
      - by rewrite Pos.compare_refl, Z.compare_refl in En.
    }
    destruct (is_nan (exon_cover r)) eqn:En'.
    { unfold is_nan in En'. apply negb_true_iff in En'.
      rewrite FloatAxioms.eqb_spec in Hz, En'.
      unfold SFeqb, SFcompare in *.
      destruct (Prim2SF (exon_cover r)) as [s|s| |s m e];
        try destruct s; discriminate. }
    rewrite Heq in Hpos. apply F64.eqb_zero_not_pos in Hz. congruence. }
  split_and!.
  - unfold Classify.classify_chains. simpl.
    set (t := default default_annot_threshold thr).
    destruct (table_has_entry t df (gene r)) as [k Hk].
    { exists r. auto. }
    exists k. split; [done|].
    apply table_entry in Hk as (_ & _ & _ & -> & _).
    apply in_chains_of. eexists. split; [exact Ho|]. by split_and!.
  - intros Hgiven. unfold Classify.classify_chains. simpl. rewrite Hgiven. eauto.
  - done.
  - intros Hh. by apply hard_filter_not_trans in Hh.
  - intros Hf. apply in_df_se in Hf as (r' & Hr' & _ & Heq).
    by apply (Hne r' Hr').
  - intros Hf. apply in_df_me in Hf as (r' & Hr' & _ & Heq).
    by apply (Hne r' Hr').
Qed.

(** *** Thresholding *)

(** C5.  When the models answer probabilities (nothing below 0, so never
    the sentinel -1), a scored row goes to PARA if its prediction is below
    the threshold and to ORTH if it is at or above it; a prediction of
    exactly 0.5 under the default threshold is ORTH. *)
Theorem scored_row_thresholded thr (df : list row) (s : score) :
  (forall x, PrimFloat.leb 0%float (se_model x) = true) ->
  (forall x, PrimFloat.leb 0%float (me_model x) = true) ->
  In s (se_result log10 se_model df ++ me_result log10 me_model df) ->
  (exists k, gene_class_chains thr df !! s_gene s = Some k /\
     (PrimFloat.ltb (pred s) thr = true -> In (s_chain s) (PARA k)) /\
     (PrimFloat.leb thr (pred s) = true -> In (s_chain s) (ORTH k))) /\
  decide_class default_annot_threshold 0.5%float = VOrth.
Proof.
  intros Hse Hme Hs. split; [|reflexivity].
  assert (In s (overall_result df)) as Ho.
  { unfold Classify.overall_result. rewrite app_assoc, in_app_iff. by left. }
  assert (PrimFloat.eqb (pred s) (-1)%float = false) as Hne.
  { apply in_scored in Hs as (r & _ & ->). simpl.
    apply F64.nonneg_not_minus_one. unfold model_score.
    destruct (ex_num r =? 1); auto. }
  destruct (table_has_entry thr df (s_gene s)) as [k Hk].
  { apply genes_of_overall, elem_of_genes_of. eauto. }
  exists k. split; [done|].
  apply table_entry in Hk as (_ & -> & -> & _). split.
  - intros Hlt. apply in_chains_of. exists s. split_and!; try done.
    unfold decide_class. by rewrite Hne, Hlt.
  - intros Hle. apply in_chains_of. exists s. split_and!; try done.
    unfold decide_class. by rewrite Hne, (F64.leb_not_ltb _ _ Hle).
Qed.

(** *** Derived features *)

Lemma fillna_not_nan (x : float) : is_nan (fillna x) = false.
Proof. unfold fillna. by destruct (is_nan x) eqn:E. Qed.


(** *** One list per chain *)

Definition key (r : row) : string * Z := (gene r, chain r).
Definition skey (s : score) : string * Z := (s_gene s, s_chain s).

Lemma filter_map_comm {A B} (f : A -> B) (p : B -> bool) (l : list A) :
  List.filter p (List.map f l) = List.map f (List.filter (fun a => p (f a)) l).
Proof.
  induction l as [|a l IH]; simpl; [done|].
  destruct (p (f a)); simpl; by rewrite IH.
Qed.

Lemma NoDup_keys_hard_filter (df : list row) :
  NoDup (List.map key df) -> NoDup (List.map key (hard_filter df)).
Proof.
  intros H. unfold hard_filter, drop_p_pseudogenes.
  by do 3 apply NoDup_map_filter.
Qed.

Lemma NoDup_keys_trans (df : list row) :
  NoDup (List.map key df) -> NoDup (List.map key (trans_lines df)).
Proof.
  intros H. unfold trans_lines, drop_p_pseudogenes.
  by do 3 apply NoDup_map_filter.
Qed.

Lemma skey_se_result (df : list row) :
  List.map skey (se_result log10 se_model df) =
  List.map key
    (List.filter (fun r => PrimFloat.eqb (single_exon (derive r)) 1%float)
       (hard_filter df)).
Proof.
  unfold se_result, df_se, df_final.
  rewrite filter_map_comm, !List.map_map. done.
Qed.

Lemma skey_me_result (df : list row) :
  List.map skey (me_result log10 me_model df) =
  List.map key
    (List.filter (fun r => PrimFloat.eqb (single_exon (derive r)) 0%float)
       (hard_filter df)).
Proof.
  unfold me_result, df_me, df_final.
  rewrite filter_map_comm, !List.map_map. done.
Qed.

Lemma in_skey_overall (df : list row) (g : string) (c : Z) :
  In (g, c) (List.map skey (overall_result df)) ->
  exists r, In r df /\ is_p_pseudogene r = false /\ key r = (g, c).
Proof.
  rewrite in_map_iff. intros (s & Hk & Hs).
  apply in_overall in Hs as [(r & Hr & ->)|(r & Hr & ->)]; exists r.
  - apply in_hard_filter in Hr as (? & ? & _). auto.
  - apply in_trans_lines in Hr as (? & ? & _). auto.
Qed.

Lemma NoDup_skey_overall (df : list row) :
  NoDup (List.map key df) -> NoDup (List.map skey (overall_result df)).
Proof.
  intros Hnd. unfold Classify.overall_result. rewrite !List.map_app.
  pose proof (NoDup_keys_hard_filter df Hnd) as Hhf.
  apply NoDup_app. split_and!.
  - rewrite skey_se_result. by apply NoDup_map_filter.
  - intros x Hx Hx'. apply list_elem_of_In in Hx. apply list_elem_of_In in Hx'.
    apply in_map_iff in Hx as (s & <- & Hs).
    assert (In s (se_result log10 se_model df ++ me_result log10 me_model df))
      as Hs2 by (apply in_app_iff; by left).
    apply in_app_iff in Hx' as [Hx'|Hx'].
    + apply in_map_iff in Hx' as (s' & Hk & Hs').
      unfold se_result in Hs. apply in_map_iff in Hs as (f & <- & Hf).
      unfold me_result in Hs'. apply in_map_iff in Hs' as (f' & <- & Hf').
      apply in_df_se in Hf as (r & Hr & He & ->).
      apply in_df_me in Hf' as (r' & Hr' & He' & ->).
      simpl in Hk. unfold skey in Hk. simpl in Hk.
      assert (r' = r) as ->; [|done].
      eapply (NoDup_map_In_inj key); eauto.
    + apply in_map_iff in Hx' as (s' & Hk & Hs').
      apply in_scored in Hs2 as (r & Hr & ->).
      apply in_trans_result in Hs' as (r' & Hr' & ->).
      assert (r' = r) as ->.
      { apply (NoDup_map_In_inj key df); [done| | |exact Hk].
        - by apply in_trans_lines in Hr' as [? _].
        - by apply in_hard_filter in Hr as [? _]. }
      by apply hard_filter_not_trans in Hr.
  - apply NoDup_app. split_and!.
    + rewrite skey_me_result. by apply NoDup_map_filter.
    + intros x Hx Hx'. apply list_elem_of_In in Hx. apply list_elem_of_In in Hx'.
      apply in_map_iff in Hx as (s & <- & Hs).
      assert (In s (se_result log10 se_model df ++ me_result log10 me_model df))
        as Hs2 by (apply in_app_iff; by right).
      apply in_map_iff in Hx' as (s' & Hk & Hs').
      apply in_scored in Hs2 as (r & Hr & ->).
      apply in_trans_result in Hs' as (r' & Hr' & ->).
      assert (r' = r) as ->.
      { apply (NoDup_map_In_inj key df); [done| | |exact Hk].
        - by apply in_trans_lines in Hr' as [? _].
        - by apply in_hard_filter in Hr as [? _]. }
      by apply hard_filter_not_trans in Hr.
    + unfold trans_result. rewrite List.map_map.
      by apply NoDup_keys_trans.
Qed.

Lemma NoDup_chain_of_gene {A} (kg : A -> string) (kc : A -> Z)
    (p : A -> bool) (g : string) (l : list A) :
  NoDup (List.map (fun a => (kg a, kc a)) l) ->
  NoDup (List.map kc
           (List.filter (fun a => bool_decide (kg a = g) && p a) l)).
Proof.
  induction l as [|a l IH]; simpl; [constructor|].
  intros Hnd. apply NoDup_cons in Hnd as [Hna Hnd].
  case_bool_decide as Hg; simpl; [|auto].
  destruct (p a); simpl; [|auto].
  apply NoDup_cons. split; [|auto].
  intros Hin. apply Hna.
  apply list_elem_of_In, in_map_iff in Hin as (x & Hx & Hin).
  apply filter_In in Hin as [Hin Hb].
  apply andb_true_iff in Hb as [Hb _]. apply bool_decide_eq_true in Hb.
  apply list_elem_of_In, in_map_iff. exists x. split; [|done]. congruence.
Qed.

Lemma lists_holding_le_1 (c : Z) (k : classes) :
  NoDup (ORTH k ++ PARA k ++ TRANS k ++ P_PGENES k) ->
  (lists_holding c k <= 1)%nat.
Proof.
  intros Hnd.
  apply NoDup_app in Hnd as (_ & H1 & Hnd).
  apply NoDup_app in Hnd as (_ & H2 & Hnd).
  apply NoDup_app in Hnd as (_ & H3 & _).
  unfold lists_holding. simpl.
  repeat case_bool_decide; simpl; try lia; exfalso.
  all: first [ eapply H1; [eassumption|]
             | eapply H2; [eassumption|]
             | eapply H3; [eassumption|] ];
    rewrite ?elem_of_app; auto.
Qed.

(** C8.  If no two rows of the input table share gene and chain, then in
    every row of the class table each chain id occurs in at most one of the
    four lists (and at most once there). *)
Theorem chain_in_at_most_one_list thr (df : list row) (g : string)
    (k : classes) :
  NoDup (List.map (fun r => (gene r, chain r)) df) ->
  gene_class_chains thr df !! g = Some k ->
  NoDup (ORTH k ++ PARA k ++ TRANS k ++ P_PGENES k) /\
  forall c, (lists_holding c k <= 1)%nat.
Proof.
  intros Hnd Hk.
  assert (NoDup (ORTH k ++ PARA k ++ TRANS k ++ P_PGENES k)) as H;
    [|split; [done|intros c; by apply lists_holding_le_1]].
  apply table_entry in Hk as (_ & -> & -> & -> & ->).
  pose proof (NoDup_skey_overall df Hnd) as Hres.
  assert (forall v v' c, v <> v' ->
            c ∈ chains_of thr v g (overall_result df) ->
            c ∈ chains_of thr v' g (overall_result df) -> False) as Hvv.
  { intros v v' c Hne Hc Hc'.
    apply list_elem_of_In, in_chains_of in Hc as (s & Hs & Hg & Hch & Hv).
    apply list_elem_of_In, in_chains_of in Hc' as (s' & Hs' & Hg' & Hch' & Hv').
    assert (s = s') as ->; [|congruence].
    eapply (NoDup_map_In_inj skey); eauto. unfold skey. congruence. }
  assert (forall v c, c ∈ chains_of thr v g (overall_result df) ->
            c ∈ dd_get (gene_to_pp_genes df) g -> False) as Hvp.
  { intros v c Hc Hp.
    apply list_elem_of_In, in_chains_of in Hc as (s & Hs & Hg & Hch & Hv).
    apply list_elem_of_In, in_pp_genes in Hp as (r' & Hr' & Hpp & Hg' & Hch').
    destruct (in_skey_overall df g c) as (r & Hr & Hnp & Hkey).
    { apply in_map_iff. exists s. split; [|done]. unfold skey. congruence. }
    assert (r = r') as ->; [|congruence].
    eapply (NoDup_map_In_inj key); eauto. rewrite Hkey. unfold key. congruence. }
  assert (forall v, NoDup (chains_of thr v g (overall_result df))) as Hv.
  { intros v. unfold chains_of.
    apply (NoDup_chain_of_gene s_gene s_chain
             (fun s => verdict_eqb (decide_class thr (pred s)) v)), Hres. }
  assert (NoDup (dd_get (gene_to_pp_genes df) g)) as Hp.
  { rewrite gene_to_pp_genes_get. unfold p_pseudogenes.
    assert (NoDup (List.map (fun a => (gene a, chain a))
                     (List.filter is_p_pseudogene df))) as Hf
      by (by apply NoDup_map_filter).
    pose proof (NoDup_chain_of_gene gene chain (fun _ => true) g _ Hf) as Hn.
    erewrite List.filter_ext; [exact Hn|].
    intros a. simpl. by rewrite andb_true_r. }
  repeat (apply NoDup_app; split_and!); try done.
  - intros c Hc Hc'. rewrite !elem_of_app in Hc'.
    destruct Hc' as [Hc'|[Hc'|Hc']]; [eapply (Hvv VOrth VPara)| eapply (Hvv VOrth VTrans) | eapply Hvp]; eauto.
  - intros c Hc Hc'. rewrite !elem_of_app in Hc'.
    destruct Hc' as [Hc'|Hc']; [eapply (Hvv VPara VTrans) | eapply Hvp]; eauto.
  - intros c Hc Hc'. eapply Hvp; eauto.
Qed.

End WithModels.

(** *** Thresholding the score table again *)

Lemma chains_of_model_scored thr v g (res : list score) :
  v <> VTrans ->
  chains_of thr v g (model_scored res) = chains_of thr v g res.
Proof.
  intros Hv. unfold chains_of, model_scored. f_equal.
  induction res as [|s res IH]; simpl; [done|].
  destruct (PrimFloat.eqb (pred s) (-1)%float) eqn:E; simpl.
  - rewrite IH. unfold decide_class. rewrite E.
    destruct (bool_decide (s_gene s = g)); simpl; [|done]. by destruct v.
  - by rewrite IH.
Qed.

Lemma chains_of_absent thr v g (res : list score) :
  g ∉ genes_of res -> chains_of thr v g res = [].
Proof.
  intros Hg. unfold chains_of.
  replace (List.filter _ res) with (@nil score); [done|].
  symmetry. induction res as [|s res IH]; simpl; [done|].
  unfold genes_of in Hg. simpl in Hg.
  apply not_elem_of_union in Hg as [Hs Hg].
  rewrite bool_decide_eq_false_2; [simpl; by apply IH|].
  intros Heq. apply Hs, elem_of_singleton. by symmetry.
Qed.

Lemma aggregate_lists thr pp (res : list score) (g : string) :
  ORTH (default no_classes (aggregate thr pp res !! g))
    = chains_of thr VOrth g res /\
  PARA (default no_classes (aggregate thr pp res !! g))
    = chains_of thr VPara g res /\
  TRANS (default no_classes (aggregate thr pp res !! g))
    = chains_of thr VTrans g res.
Proof.
  rewrite aggregate_lookup. case_bool_decide as Hg; simpl.
  - destruct (fold_visit_if_lists thr pp g res no_classes) as (-> & -> & ->).
    done.
  - by rewrite !chains_of_absent.
Qed.

Lemma score_frame_has_no_synt (res : list score) :
  load_features (score_frame res) = inl (KeyError "synt").
Proof.
  unfold load_features, str_column, column. simpl.
  assert (forall l : list score,
            traverse as_str
              (List.map (fun l0 : list cell => nth 0 l0 (CFloat nan))
                 (List.map (fun s => [CStr (s_gene s); CInt (s_chain s);
                                      CFloat (pred s)]) l))
            = inr (List.map s_gene l)) as H.
  { induction l as [|a l IH]; simpl; [done|]. by rewrite IH. }
  by rewrite H.
Qed.

Section Rerun.

Variable log10 : float -> float.
Variable se_model me_model : list float -> float.

(** C9 (amended).  The score table has no feature columns, so
    [classify_chains] itself stops on it with a [KeyError] for [synt].
    Running the threshold loop again over the lines of the score table with
    [pred <> -1], with the same threshold, gives every gene the ORTH and
    PARA lists of the first run (whatever pseudogene dictionary is passed). *)
Theorem rethreshold_same_partition thr pp (df : list row) raw_out rej t :
  classify_chains_file log10 se_model me_model
    (score_frame (model_scored (overall_result log10 se_model me_model df)))
    raw_out rej t = inl (KeyError "synt") /\
  forall g,
    ORTH (default no_classes
            (aggregate thr pp
               (model_scored (overall_result log10 se_model me_model df)) !! g))
    = ORTH (default no_classes
              (gene_class_chains log10 se_model me_model thr df !! g)) /\
    PARA (default no_classes
            (aggregate thr pp
               (model_scored (overall_result log10 se_model me_model df)) !! g))
    = PARA (default no_classes
              (gene_class_chains log10 se_model me_model thr df !! g)).
Proof.
  split.
  - unfold classify_chains_file. by rewrite score_frame_has_no_synt.
  - intros g. unfold gene_class_chains.
    destruct (aggregate_lists thr pp
                (model_scored (overall_result log10 se_model me_model df)) g)
      as (-> & -> & _).
    destruct (aggregate_lists thr (gene_to_pp_genes df)
                (overall_result log10 se_model me_model df) g)
      as (-> & -> & _).
    by rewrite !chains_of_model_scored.
Qed.

End Rerun.

(** *** The properties on the sample rows *)

Section OnSamples.
Import Samples.

Local Abbreviation m := (const_model 0.5%float).
Local Abbreviation lg := log10_stand_in.

Lemma pseudogene_row_recorded_witness :
  In row_pp [row_pp; row_me] /\ is_p_pseudogene row_pp = true /\
  forall k,
    gene_class_chains lg m m 0.5%float [row_pp; row_me] !! "G1" = Some k ->
    In 1 (P_PGENES k).
Proof.
  assert (In row_pp [row_pp; row_me]) as H1 by (left; reflexivity).
  assert (is_p_pseudogene row_pp = true) as H2 by reflexivity.
  split_and!; [exact H1|exact H2|].
  intros k Hk.
  exact (proj1 (proj1 (proj2 (proj2
    (pseudogene_row_recorded lg m m 0.5%float [row_pp; row_me] row_pp H1 H2)))
    k Hk)).
Defined.

(** C1, as stated, fails: a gene whose only row is a processed pseudogene
    has no row in the class table at all. *)
Lemma pseudogene_only_gene_unlisted :
  In row_pp [row_pp] /\ is_p_pseudogene row_pp = true /\
  class_table (run [row_pp]) !! gene row_pp = None.
Proof. split_and!; [by left|reflexivity|by vm_compute]. Qed.



Lemma gene_accepted_xor_rejected_witness :
  given (Some "rejected.txt") = true /\
  In "G1" (List.map gene [row_pp; row_me]) /\
  exists lines,
    rejected (classify_chains lg m m [row_pp; row_me] None
                (Some "rejected.txt") None) = Some lines /\
    ((is_Some (class_table (classify_chains lg m m [row_pp; row_me] None
                              (Some "rejected.txt") None) !! "G1")
      /\ ~ In (rejected_line "G1") lines) \/
     (class_table (classify_chains lg m m [row_pp; row_me] None
                     (Some "rejected.txt") None) !! "G1" = None
      /\ In ("G1" +:+ tab +:+ "No classifiable chains" +:+ nl) lines)).
Proof.
  assert (given (Some "rejected.txt") = true) as H1 by reflexivity.
  assert (In "G1" (List.map gene [row_pp; row_me])) as H2 by (left; reflexivity).
  split_and!; [exact H1|exact H2|].
  exact (gene_accepted_xor_rejected lg m m [row_pp; row_me] None
           (Some "rejected.txt") None "G1" H1 H2).
Defined.

Lemma trans_row_recorded_witness :
  In row_trans (drop_p_pseudogenes [row_pp; row_trans]) /\
  PrimFloat.eqb (exon_cover row_trans) 0%float = true /\
  (1 <? synt row_trans) = true /\
  In (Score "G2" 2 (-1)%float) (overall_result lg m m [row_pp; row_trans]).
Proof.
  assert (In row_trans (drop_p_pseudogenes [row_pp; row_trans])) as H1
    by (vm_compute; auto).
  assert (PrimFloat.eqb (exon_cover row_trans) 0%float = true) as H2
    by reflexivity.
  assert ((1 <? synt row_trans) = true) as H3 by reflexivity.
  split_and!; [exact H1|exact H2|exact H3|].
  exact (proj1 (proj2 (proj2
    (trans_row_recorded lg m m [row_pp; row_trans] None None None row_trans
       H1 H2 H3)))).
Defined.

Lemma scored_row_thresholded_witness :
  (forall x, PrimFloat.leb 0%float (m x) = true) /\
  In (Score "G1" 7 0.5%float)
     (se_result lg m [row_me] ++ me_result lg m [row_me]) /\
  exists k, gene_class_chains lg m m 0.5%float [row_me] !! "G1" = Some k /\
    (PrimFloat.ltb 0.5%float 0.5%float = true -> In 7 (PARA k)) /\
    (PrimFloat.leb 0.5%float 0.5%float = true -> In 7 (ORTH k)).
Proof.
  assert (forall x, PrimFloat.leb 0%float (m x) = true) as H1
    by (intros x; reflexivity).
  assert (In (Score "G1" 7 0.5%float)
            (se_result lg m [row_me] ++ me_result lg m [row_me])) as H2
    by (vm_compute; auto).
  split_and!; [exact H1|exact H2|].
  exact (proj1 (scored_row_thresholded lg m m 0.5%float [row_me]
                  (Score "G1" 7 0.5%float) H1 H1 H2)).
Defined.

Lemma chain_in_at_most_one_list_witness :
  NoDup (List.map (fun r => (gene r, chain r)) [row_pp; row_me]) /\
  gene_class_chains lg m m 0.5%float [row_pp; row_me] !! "G1"
    = Some (Classes [7] [] [] [1]) /\
  NoDup [7; 1].
Proof.
  assert (NoDup (List.map (fun r => (gene r, chain r)) [row_pp; row_me])) as H1.
  { simpl. apply NoDup_cons. split; [|apply NoDup_singleton].
    intros H. apply list_elem_of_In in H. destruct H as [H|[]]. discriminate. }
  assert (gene_class_chains lg m m 0.5%float [row_pp; row_me] !! "G1"
          = Some (Classes [7] [] [] [1])) as H2 by (by vm_compute).
  split_and!; [exact H1|exact H2|].
  exact (proj1 (chain_in_at_most_one_list lg m m 0.5%float [row_pp; row_me]
                  "G1" _ H1 H2)).
Defined.

(** C9, as stated, fails: the classifier run on its own score table stops
    with a [KeyError] and yields no partition. *)
Lemma rerun_on_scores_is_key_error :
  raw_scores (run [row_me; row_trans])
    = Some [Score "G1" 7 0.5%float; Score "G2" 2 (-1)%float] /\
  classify_chains_file lg m m
    (score_frame (model_scored [Score "G1" 7 0.5%float; Score "G2" 2 (-1)%float]))
    (Some "scores.tsv") (Some "rejected.txt") None
  = inl (KeyError "synt").
Proof. split; by vm_compute. Qed.

End OnSamples.

End ClassifyFacts.

(** ** Facts about the controller *)

Module TogaFacts.
Import Text Toga.

(** C7.  The claim holds of every path through [die] but not of
    [__merge_dir]: with an empty directory to merge it leaves through
    [sys.exit] directly.  On the sample state the run ends with status 1
    while both registered temp artifacts are still there; [die] from the
    same state removes them. *)
Theorem merge_dir_exit_skips_teardown :
  keep_temp sample_toga = false /\
  temp_files sample_toga = ["/wd/genome_alignment.chain"; "/wd/cesar_jobs"] /\
  (exists w',
     merge_split_files sample_toga sample_world = Exit 1 w' /\
     err w' = ["Error! /wd/inact_mut_data is empty
"] /\
     isfile (fs w') "/wd/genome_alignment.chain" = true /\
     isdir (fs w') "/wd/cesar_jobs" = true) /\
  (exists w',
     @die unit sample_toga "Error!" 1 sample_world = Exit 1 w' /\
     isfile (fs w') "/wd/genome_alignment.chain" = false /\
     isdir (fs w') "/wd/cesar_jobs" = false).
Proof.
  split_and!; try reflexivity.
  - eexists. split_and!; [by vm_compute| | |]; by vm_compute.
  - eexists. split_and!; [reflexivity| |]; by vm_compute.
Qed.

Section Stage.

Variable log10 : float -> float.
Variable se_model me_model : list float -> float.

(** C10.  The controller calls the classifier without a threshold, so the
    default 0.5 decides between ORTH and PARA whatever the command line
    says; [--min_score] changes none of the attributes the stages read. *)
Theorem classifier_threshold_fixed (location cwd : string) (a : args)
    (m : Z) (self : toga) (df : list Classify.row) :
  init_fields location cwd (with_min_score m a) = init_fields location cwd a /\
  cc_annot_threshold (classify_call_of self) = None /\
  Classify.class_table (classify_stage log10 se_model me_model self df) =
  Classify.gene_class_chains log10 se_model me_model 0.5%float df.
Proof. split_and!; reflexivity. Qed.

End Stage.

End TogaFacts.

(** ** More about the classifier *)

Module ClassifyMore.
Import Classify ClassifyFacts.

Lemma filter_length_disjoint {A} (p q : A -> bool) (l : list A) :
  (forall a, p a = true -> q a = false) ->
  (length (List.filter p l) + length (List.filter q l))%nat =
  length (List.filter (fun a => p a || q a) l).
Proof.
  intros Hpq. induction l as [|a l IH]; simpl; [done|].
  destruct (p a) eqn:Ep; simpl.
  - rewrite (Hpq a Ep). simpl. by rewrite IH.
  - destruct (q a); simpl; rewrite <- IH; lia.
Qed.

Lemma filter_filter {A} (p q : A -> bool) (l : list A) :
  List.filter p (List.filter q l) = List.filter (fun a => q a && p a) l.
Proof.
  induction l as [|a l IH]; simpl; [done|].
  destruct (q a); simpl; [|done]. destruct (p a); simpl; by rewrite IH.
Qed.

Lemma hard_filter_as_filter (df : list row) :
  hard_filter df =
  List.filter (fun r => negb (is_p_pseudogene r) &&
                 (PrimFloat.ltb 0%float (exon_cover r) && (0 <? synt r))) df.
Proof.
  unfold hard_filter, drop_p_pseudogenes. rewrite !filter_filter.
  apply List.filter_ext. intros r. by rewrite andb_assoc.
Qed.

Lemma trans_lines_as_filter (df : list row) :
  trans_lines df =
  List.filter (fun r => negb (is_p_pseudogene r) &&
                 (PrimFloat.eqb (exon_cover r) 0%float && (1 <? synt r))) df.
Proof.
  unfold trans_lines, drop_p_pseudogenes. rewrite !filter_filter.
  apply List.filter_ext. intros r. by rewrite andb_assoc.
Qed.

Section WithModels.

Variable log10 : float -> float.
Variable se_model me_model : list float -> float.

Local Abbreviation derive := (derive log10).
Local Abbreviation overall_result := (overall_result log10 se_model me_model).
Local Abbreviation gene_class_chains :=
  (gene_class_chains log10 se_model me_model).
Local Abbreviation model_score := (model_score log10 se_model me_model).

Lemma df_se_me_length (df : list row) :
  (length (df_se log10 df) + length (df_me log10 df))%nat =
  length (hard_filter df).
Proof.
  unfold df_se, df_me, df_final.
  induction (hard_filter df) as [|r l IH]; simpl; [done|].
  destruct (ex_num r =? 1); simpl.
  - change (PrimFloat.eqb 1%float 1%float) with true.
    change (PrimFloat.eqb 1%float 0%float) with false. simpl. lia.
  - change (PrimFloat.eqb 0%float 1%float) with false.
    change (PrimFloat.eqb 0%float 0%float) with true. simpl. lia.
Qed.


(** X2.  A row that is neither a processed pseudogene nor one of the rows
    above is dropped without trace: if no other row carries its gene and
    chain, the chain is in none of the four lists of its gene. *)
Theorem dropped_row_in_no_list thr (df : list row) (r : row) (k : classes) :
  In r df -> is_p_pseudogene r = false -> reaches_output r = false ->
  (forall r', In r' df -> gene r' = gene r -> chain r' = chain r -> r' = r) ->
  gene_class_chains thr df !! gene r = Some k ->
  ~ In (chain r) (ORTH k ++ PARA k ++ TRANS k ++ P_PGENES k).
Proof.
  intros Hin Hnp Hno Huniq Hk.
  apply table_entry in Hk as (_ & -> & -> & -> & ->).
  assert (~ In r (hard_filter df)) as Hh.
  { rewrite hard_filter_as_filter, filter_In. intros [_ Hb].
    unfold reaches_output in Hno. rewrite Hnp in *. simpl in *.
    by rewrite Hb in Hno. }
  assert (~ In r (trans_lines df)) as Ht.
  { rewrite trans_lines_as_filter, filter_In. intros [_ Hb].
    unfold reaches_output in Hno. rewrite Hnp in *. simpl in *.
    rewrite Hb in Hno. by rewrite orb_true_r in Hno. }
  assert (forall v, ~ In (chain r) (chains_of thr v (gene r) (overall_result df)))
    as Hv.
  { intros v Hc. apply in_chains_of in Hc as (s & Hs & Hg & Hc & _).
    apply in_overall in Hs as [(r' & Hr' & ->)|(r' & Hr' & ->)];
      simpl in Hg, Hc.
    - assert (r' = r) as ->; [|done].
      apply Huniq; [|done|done]. by apply in_hard_filter in Hr' as [? _].
    - assert (r' = r) as ->; [|done].
      apply Huniq; [|done|done]. by apply in_trans_lines in Hr' as [? _]. }
  rewrite !in_app_iff. intros [H|[H|[H|H]]]; try by eapply Hv.
  apply in_pp_genes in H as (r' & Hr' & Hpp & Hg & Hc).
  rewrite (Huniq r' Hr' Hg Hc) in Hpp. congruence.
Qed.

(** X3.  In a row of the class table, P_PGENES holds the chains of all
    processed-pseudogene rows of the gene, in the order of the input. *)
Theorem pp_column_in_table_order thr (df : list row) (g : string)
    (k : classes) :
  gene_class_chains thr df !! g = Some k ->
  P_PGENES k =
  List.map chain
    (List.filter (fun r => is_p_pseudogene r && bool_decide (gene r = g)) df).
Proof.
  intros Hk. apply table_entry in Hk as (_ & _ & _ & _ & ->).
  rewrite gene_to_pp_genes_get. unfold p_pseudogenes.
  by rewrite filter_filter.
Qed.

Lemma chains_of_app thr v g (l1 l2 : list score) :
  chains_of thr v g (l1 ++ l2) = chains_of thr v g l1 ++ chains_of thr v g l2.
Proof. unfold chains_of. by rewrite List.filter_app, List.map_app. Qed.

Lemma chains_of_trans_result thr g (df : list row) :
  chains_of thr VTrans g (trans_result df) =
  List.map chain
    (List.filter (fun r => bool_decide (gene r = g)) (trans_lines df)).
Proof.
  unfold chains_of, trans_result.
  induction (trans_lines df) as [|r l IH]; simpl; [done|].
  destruct (bool_decide (gene r = g)); simpl; by rewrite IH.
Qed.

Lemma chains_of_none thr v g (l : list score) :
  (forall s, In s l -> decide_class thr (pred s) <> v) ->
  chains_of thr v g l = [].
Proof.
  intros H. unfold chains_of.
  replace (List.filter _ l) with (@nil score); [done|].
  symmetry. induction l as [|s l IH]; simpl; [done|].
  rewrite IH by (intros s' Hs'; apply H; by right).
  destruct (bool_decide (s_gene s = g)); simpl; [|done].
  specialize (H s (or_introl eq_refl)).
  by destruct (decide_class thr (pred s)), v.
Qed.

(** X4.  When the models answer probabilities, the TRANS column of a gene
    is the list the classifier keeps in [gene_trans] (and never reads): the
    chains of the gene's trans rows, in the order of the input. *)
Theorem trans_column_is_gene_trans thr (df : list row) (g : string)
    (k : classes) :
  (forall x, PrimFloat.leb 0%float (se_model x) = true) ->
  (forall x, PrimFloat.leb 0%float (me_model x) = true) ->
  gene_class_chains thr df !! g = Some k ->
  TRANS k = dd_get (gene_trans df) g.
Proof.
  intros Hse Hme Hk. apply table_entry in Hk as (_ & _ & _ & -> & _).
  rewrite gene_trans_get. unfold Classify.overall_result.
  rewrite app_assoc, chains_of_app, chains_of_trans_result.
  rewrite chains_of_none; [done|].
  intros s Hs. apply in_scored in Hs as (r & _ & ->). simpl.
  unfold decide_class. rewrite F64.nonneg_not_minus_one.
  - by destruct (PrimFloat.ltb _ thr).
  - unfold ClassifyFacts.model_score. destruct (ex_num r =? 1); auto.
Qed.

(** X5.  A row whose model score is exactly -1 is taken for a trans chain:
    its chain is filed under TRANS, whatever the threshold. *)
Theorem sentinel_score_filed_as_trans thr (df : list row) (r : row) :
  In r (hard_filter df) ->
  PrimFloat.eqb (model_score r) (-1)%float = true ->
  exists k, gene_class_chains thr df !! gene r = Some k /\
            In (chain r) (TRANS k).
Proof.
  intros Hr Hm.
  destruct (table_has_entry log10 se_model me_model thr df (gene r)) as [k Hk].
  { exists r. auto. }
  exists k. split; [done|].
  apply table_entry in Hk as (_ & _ & _ & -> & _).
  apply in_chains_of. exists (Score (gene r) (chain r) (model_score r)).
  split_and!; try done.
  - apply in_overall. left. eauto.
  - simpl. unfold decide_class. by rewrite Hm.
Qed.

(** X6.  A row whose model score is NaN is classified ORTH, whatever the
    threshold. *)
Theorem nan_score_is_orth thr (df : list row) (r : row) :
  In r (hard_filter df) -> is_nan (model_score r) = true ->
  exists k, gene_class_chains thr df !! gene r = Some k /\
            In (chain r) (ORTH k).
Proof.
  intros Hr Hm.
  destruct (table_has_entry log10 se_model me_model thr df (gene r)) as [k Hk].
  { exists r. auto. }
  exists k. split; [done|].
  apply table_entry in Hk as (_ & -> & _).
  apply in_chains_of. exists (Score (gene r) (chain r) (model_score r)).
  split_and!; try done.
  - apply in_overall. left. eauto.
  - simpl. unfold decide_class.
    destruct (F64.nan_compares_false (model_score r) (-1)%float Hm) as [-> _].
    by destruct (F64.nan_compares_false (model_score r) thr Hm) as [_ ->].
Qed.

(** X7.  No feature handed to a model is NaN. *)
Theorem models_never_see_nan (df : list row) (f : frow) (x : float) :
  (In f (df_se log10 df) /\ In x (X_se f)) \/
  (In f (df_me log10 df) /\ In x (X_me f)) ->
  is_nan x = false.
Proof.
  intros [[Hf Hx]|[Hf Hx]].
  - apply in_df_se in Hf as (r & _ & _ & ->). simpl in Hx.
    destruct Hx as [<-|[<-|[<-|[<-|[]]]]]; apply fillna_not_nan.
  - apply in_df_me in Hf as (r & _ & _ & ->). simpl in Hx.
    destruct Hx as [<-|[<-|[<-|[<-|[<-|[]]]]]]; apply fillna_not_nan.
Qed.

(** X8.  The class table and the rejected log share out the genes of the
    input: the number of table rows plus the number of rejected genes is the
    number of distinct genes. *)
Theorem accepted_plus_rejected thr (df : list row) :
  (size (dom (gene_class_chains thr df)) +
   length (genes_missing log10 se_model me_model df))%nat =
  size (init_genes_set df).
Proof.
  assert (dom (gene_class_chains thr df) = genes_of (overall_result df)) as ->.
  { apply set_eq. intros g. rewrite elem_of_dom.
    unfold Classify.gene_class_chains. rewrite aggregate_lookup.
    case_bool_decide as Hg; split; intros H; try done; try by eauto.
    all: by destruct H. }
  assert (genes_of (overall_result df) ⊆ init_genes_set df) as Hsub.
  { intros g Hg. apply genes_of_overall, classifiable_in_table in Hg.
    unfold init_genes_set. by apply elem_of_list_to_set, list_elem_of_In. }
  unfold genes_missing.
  change (length (elements ?X)) with (size X).
  rewrite size_difference by done.
  apply subseteq_size in Hsub. lia.
Qed.

Lemma orth_para_perm thr g (res : list score) :
  chains_of thr VOrth g res ++ chains_of thr VPara g res ≡ₚ
  List.map s_chain
    (List.filter (fun s => bool_decide (s_gene s = g) &&
                           negb (PrimFloat.eqb (pred s) (-1)%float)) res).
Proof.
  unfold chains_of. induction res as [|s res IH]; simpl; [done|].
  destruct (bool_decide (s_gene s = g)); simpl; [|done].
  unfold decide_class.
  destruct (PrimFloat.eqb (pred s) (-1)%float); simpl; [done|].
  destruct (PrimFloat.ltb (pred s) thr); simpl.
  - rewrite <- IH. by rewrite <- Permutation_middle.
  - by rewrite IH.
Qed.

Lemma trans_chains_any_threshold thr thr' g (res : list score) :
  chains_of thr VTrans g res = chains_of thr' VTrans g res.
Proof.
  unfold chains_of. f_equal. apply List.filter_ext. intros s.
  unfold decide_class. destruct (PrimFloat.eqb (pred s) (-1)%float); [done|].
  by destruct (PrimFloat.ltb (pred s) thr), (PrimFloat.ltb (pred s) thr').
Qed.

(** X9.  The threshold decides between ORTH and PARA and nothing else: two
    runs on the same table under different thresholds list the same genes,
    with the same TRANS and P_PGENES columns, and the same chains in ORTH
    and PARA taken together. *)
Theorem threshold_moves_only_orth_para thr thr' (df : list row) (g : string) :
  (is_Some (gene_class_chains thr df !! g) <->
   is_Some (gene_class_chains thr' df !! g)) /\
  TRANS (default no_classes (gene_class_chains thr df !! g)) =
  TRANS (default no_classes (gene_class_chains thr' df !! g)) /\
  P_PGENES (default no_classes (gene_class_chains thr df !! g)) =
  P_PGENES (default no_classes (gene_class_chains thr' df !! g)) /\
  ORTH (default no_classes (gene_class_chains thr df !! g)) ++
  PARA (default no_classes (gene_class_chains thr df !! g)) ≡ₚ
  ORTH (default no_classes (gene_class_chains thr' df !! g)) ++
  PARA (default no_classes (gene_class_chains thr' df !! g)).
Proof.
  split_and!.
  - split; intros [k Hk]; apply table_entry in Hk as [Hc _];
      by apply table_has_entry.
  - unfold Classify.gene_class_chains.
    destruct (aggregate_lists thr (gene_to_pp_genes df) (overall_result df) g)
      as (_ & _ & ->).
    destruct (aggregate_lists thr' (gene_to_pp_genes df) (overall_result df) g)
      as (_ & _ & ->).
    apply trans_chains_any_threshold.
  - unfold Classify.gene_class_chains. rewrite !aggregate_lookup.
    case_bool_decide; simpl; [|done]. by rewrite !fold_visit_if_pp.
  - unfold Classify.gene_class_chains.
    destruct (aggregate_lists thr (gene_to_pp_genes df) (overall_result df) g)
      as (-> & -> & _).
    destruct (aggregate_lists thr' (gene_to_pp_genes df) (overall_result df) g)
      as (-> & -> & _).
    by rewrite !orth_para_perm.
Qed.

End WithModels.

(** *** Reading the table *)

Lemma traverse_map {A B C} (f : B -> option C) (g : A -> B) (h : A -> C)
    (l : list A) :
  (forall a, f (g a) = Some (h a)) ->
  traverse f (List.map g l) = inr (List.map h l).
Proof.
  intros H. induction l as [|a l IH]; simpl; [done|].
  by rewrite H, IH.
Qed.

Lemma rebuild_from_indices {A} (d : A) (l : list A) (F : nat -> A) :
  (forall i, F i = nth i l d) -> List.map F (seq 0 (length l)) = l.
Proof.
  revert F. induction l as [|a l IH]; intros F H; simpl; [done|].
  f_equal; [apply (H O)|].
  rewrite <- seq_shift, List.map_map. apply IH. intros i. apply (H (S i)).
Qed.

Definition blank_row : row :=
  {| gene := ""; chain := 0; synt := 0; gl_exo := nan; loc_exo := nan;
     flank_cov := nan; exon_cover := nan; ex_fract := nan;
     intr_cover := nan; intr_fract := nan; chain_len := nan; ex_num := 0;
     cds_qlen := nan |}.


Lemma column_missing (fr : frame) (name : string) :
  index_of name (columns fr) = None ->
  str_column fr name = inl (KeyError name) /\
  int_column fr name = inl (KeyError name) /\
  float_column fr name = inl (KeyError name).
Proof.
  intros H. unfold str_column, int_column, float_column, column.
  by rewrite H.
Qed.


End ClassifyMore.

(** ** More about the controller *)

Module TogaMore.
Import Text Toga.

(** *** Paths *)

Lemma append_cons (x : ascii) (a b : string) :
  String x a +:+ b = String x (a +:+ b).
Proof. reflexivity. Qed.

Lemma append_nil (b : string) : "" +:+ b = b.
Proof. reflexivity. Qed.

Lemma app_assoc_str (a b c : string) : (a +:+ b) +:+ c = a +:+ (b +:+ c).
Proof.
  induction a as [|x a IH]; [done|]. by rewrite !append_cons, IH.
Qed.

Lemma prefix_cons (a b : ascii) (p s : string) :
  String.prefix (String a p) (String b s) =
  if ascii_dec a b then String.prefix p s else false.
Proof. reflexivity. Qed.

Lemma startswith_app (p s : string) :
  startswith p s = true <-> exists r, s = p +:+ r.
Proof.
  unfold startswith. revert s. induction p as [|a p IH]; intros s.
  - split; [intros _; by exists s|]. by destruct s.
  - destruct s as [|b s].
    + split; [done|]. intros [r Hr]. by rewrite append_cons in Hr.
    + rewrite prefix_cons. destruct (ascii_dec a b) as [->|Hne].
      * rewrite IH. split; intros [r Hr]; exists r;
          rewrite ?append_cons in *; congruence.
      * split; [done|]. intros [r Hr]. rewrite append_cons in Hr. congruence.
Qed.

Lemma under_refl (d : string) : under d d = true.
Proof. unfold under. by rewrite String.eqb_refl. Qed.

Lemma under_cases (d k : string) :
  under d k = true <-> k = d \/ exists r, k = d +:+ "/" +:+ r.
Proof.
  unfold under. rewrite orb_true_iff, String.eqb_eq, startswith_app.
  split; (intros [H|[r H]]; [by left|right; exists r]).
  - by rewrite <- app_assoc_str.
  - by rewrite app_assoc_str.
Qed.

Lemma under_trans (a b c : string) :
  under a b = true -> under b c = true -> under a c = true.
Proof.
  rewrite !under_cases. intros [->|[r ->]] [->|[r' ->]]; eauto.
  right. exists (r +:+ "/" +:+ r'). by rewrite !app_assoc_str.
Qed.

(** *** Lines of a text *)

Fixpoint has_nl (s : string) : bool :=
  match s with
  | EmptyString => false
  | String c s' => Ascii.eqb c newline || has_nl s'
  end.

Definition ln (b : string) : string := b +:+ "
".

Definition cat (l : list string) : string := fold_right String.append "" l.

Definition tail_lines (t : string) : list string :=
  match t with
  | EmptyString => []
  | _ => [t]
  end.

Lemma append_empty_r (s : string) : s +:+ "" = s.
Proof. induction s as [|c s IH]; [done|]. by rewrite append_cons, IH. Qed.

Lemma join_empty_sep (l : list string) : join "" l = cat l.
Proof.
  unfold join. induction l as [|x l IH]; [done|].
  destruct l as [|y l]; simpl in *.
  - by rewrite append_empty_r.
  - by rewrite append_nil, IH.
Qed.

Lemma readlines_cons (c : ascii) (s : string) :
  readlines (String c s) =
  if Ascii.eqb c newline then String c EmptyString :: readlines s
  else match readlines s with
       | [] => [String c EmptyString]
       | l :: ls => String c l :: ls
       end.
Proof. reflexivity. Qed.

Lemma readlines_tail (t : string) :
  has_nl t = false -> readlines t = tail_lines t.
Proof.
  induction t as [|c t IH]; [done|]. simpl. intros H.
  apply orb_false_iff in H as [Hc Ht]. rewrite Hc, (IH Ht).
  by destruct t.
Qed.

Lemma readlines_line (b rest : string) :
  has_nl b = false -> readlines (ln b +:+ rest) = ln b :: readlines rest.
Proof.
  unfold ln. induction b as [|c b IH]; intros H.
  - reflexivity.
  - simpl in H. apply orb_false_iff in H as [Hc Hb].
    rewrite !append_cons, readlines_cons, Hc, (IH Hb). done.
Qed.

Lemma readlines_cat (bodies : list string) (t : string) :
  Forall (fun b => has_nl b = false) bodies -> has_nl t = false ->
  readlines (cat (List.map ln bodies) +:+ t) =
  List.map ln bodies ++ tail_lines t.
Proof.
  intros Hb Ht. induction Hb as [|b bs Hb _ IH]; simpl.
  - by apply readlines_tail.
  - by rewrite app_assoc_str, (readlines_line _ _ Hb), IH.
Qed.

(** Every text is a run of newline-ended lines and a last piece without
    newline. *)
Lemma text_shape (c : string) :
  exists bodies t,
    Forall (fun b => has_nl b = false) bodies /\ has_nl t = false /\
    c = cat (List.map ln bodies) +:+ t.
Proof.
  induction c as [|x c (bodies & t & Hb & Ht & ->)].
  - by exists [], "".
  - destruct (Ascii.eqb x newline) eqn:Ex.
    + apply Ascii.eqb_eq in Ex as ->. exists ("" :: bodies), t.
      split_and!; [by constructor|done|done].
    + destruct bodies as [|b bs].
      * exists [], (String x t). split_and!; [done| |done].
        simpl. by rewrite Ex.
      * apply Forall_cons in Hb as [Hb Hbs].
        exists (String x b :: bs), t. split_and!; [|done|done].
        constructor; [|done]. simpl. by rewrite Ex.
Qed.

Lemma ln_is_newline (b : string) :
  String.eqb (ln b) "
" = match b with EmptyString => true | _ => false end.
Proof.
  destruct b as [|c b]; [done|]. unfold ln. rewrite append_cons.
  apply String.eqb_neq. intros [= _ H]. by destruct b.
Qed.

(** X17.  The text [__merge_dir] keeps of one file has the lines of the
    file in their order, without the empty ones. *)
Theorem nonblank_lines_are_the_nonempty_lines (c : string) :
  readlines (nonblank_lines c) =
  List.filter (fun x => negb (String.eqb x "
")) (readlines c).
Proof.
  destruct (text_shape c) as (bodies & t & Hb & Ht & ->).
  unfold nonblank_lines. rewrite (readlines_cat _ _ Hb Ht).
  assert (List.filter (fun x => negb (String.eqb x "
")) (List.map ln bodies ++ tail_lines t) =
          List.map ln (List.filter
                         (fun b => match b with EmptyString => false
                                           | _ => true end) bodies)
          ++ tail_lines t) as ->.
  { rewrite List.filter_app. f_equal.
    - clear Hb. induction bodies as [|b bs IH]; [done|]. simpl.
      rewrite ln_is_newline, IH. by destruct b.
    - destruct t as [|x t]; [done|]. cbn [tail_lines List.filter].
      simpl in Ht. apply orb_false_iff in Ht as [Hx _].
      assert (String.eqb (String x t) "
" = false) as Hne; [|by rewrite Hne].
      apply String.eqb_neq. intros [= -> _]. done. }
  rewrite join_empty_sep.
  assert (cat (List.map ln
                 (List.filter (fun b => match b with EmptyString => false
                                            | _ => true end) bodies)
               ++ tail_lines t) =
          cat (List.map ln
                 (List.filter (fun b => match b with EmptyString => false
                                            | _ => true end) bodies))
          +:+ t) as ->.
  { generalize (List.map ln
                  (List.filter (fun b => match b with EmptyString => false
                                             | _ => true end) bodies)).
    intros l. induction l as [|y l IH]; simpl.
    - destruct t; [done|]. simpl. by rewrite append_empty_r.
    - by rewrite IH, app_assoc_str. }
  apply readlines_cat; [|done].
  clear Ht. induction Hb as [|b bs Hb _ IH]; simpl; [constructor|].
  destruct b; [done|]. by constructor.
Qed.

(** *** Removing files *)

Lemma rmtree_lookup (d : string) (f : gmap string node) (p : string) :
  rmtree d f !! p = if under d p then None else f !! p.
Proof.
  unfold rmtree. destruct (under d p) eqn:E.
  - apply map_lookup_filter_None_2. right. intros x _. simpl. congruence.
  - destruct (f !! p) as [x|] eqn:Ep.
    + by apply map_lookup_filter_Some_2.
    + apply map_lookup_filter_None_2. by left.
Qed.

Lemma cleanup_one_kept (f : gmap string node) (t : string) :
  cleanup_one true f t = f.
Proof. unfold cleanup_one. by rewrite !andb_false_r. Qed.

Lemma cleanup_one_lookup (f : gmap string node) (t p : string) :
  cleanup_one false f t !! p =
  match f !! t with
  | Some (File _) => if String.eqb p t then None else f !! p
  | Some Dir => if under t p then None else f !! p
  | None => f !! p
  end.
Proof.
  unfold cleanup_one, isfile, isdir. rewrite !andb_true_r.
  destruct (f !! t) as [[c|]|] eqn:Et.
  - rewrite lookup_delete_eq. destruct (String.eqb_spec p t) as [->|Hne].
    + by rewrite lookup_delete_eq.
    + by rewrite lookup_delete_ne.
  - rewrite Et. apply rmtree_lookup.
  - by rewrite Et.
Qed.

Lemma cleanup_one_never_adds keep (f : gmap string node) (t p : string) :
  f !! p = None -> cleanup_one keep f t !! p = None.
Proof.
  intros Hp. destruct keep; [by rewrite cleanup_one_kept|].
  rewrite cleanup_one_lookup.
  destruct (f !! t) as [[c|]|]; [destruct (String.eqb p t)|
                                 destruct (under t p)|]; done.
Qed.

Lemma cleanup_never_adds keep (l : list string) (f : gmap string node)
    (p : string) :
  f !! p = None -> fold_left (cleanup_one keep) l f !! p = None.
Proof.
  revert f. induction l as [|t l IH]; intros f Hp; simpl; [done|].
  by apply IH, cleanup_one_never_adds.
Qed.

Lemma cleanup_one_self (f : gmap string node) (t : string) :
  cleanup_one false f t !! t = None.
Proof.
  rewrite cleanup_one_lookup. destruct (f !! t) as [[c|]|] eqn:Et.
  - by rewrite String.eqb_refl.
  - by rewrite under_refl.
  - done.
Qed.

Lemma cleanup_one_outside keep (f : gmap string node) (t p : string) :
  under t p = false -> cleanup_one keep f t !! p = f !! p.
Proof.
  intros Hu. destruct keep; [by rewrite cleanup_one_kept|].
  rewrite cleanup_one_lookup, Hu.
  destruct (f !! t) as [[c|]|]; try done.
  unfold under in Hu. apply orb_false_iff in Hu as [-> _]. done.
Qed.

(** X12.  Unless temp files are kept, [die] leaves none of the registered
    paths behind, and it touches no path that is neither registered nor
    below a registered one; it always ends the process with the status it
    was given. *)
Theorem die_removes_registered (self : toga) (msg : string) (rc : Z)
    (w : world) :
  keep_temp self = false ->
  exists w', @die unit self msg rc w = Exit rc w' /\
    (forall t, In t (temp_files self) -> fs w' !! t = None) /\
    (forall p, (forall t, In t (temp_files self) -> under t p = false) ->
               fs w' !! p = fs w !! p).
Proof.
  intros Hk. eexists. split; [reflexivity|]. simpl. unfold cleanup.
  rewrite Hk. generalize (fs w) as f. generalize (temp_files self) as l.
  induction l as [|t0 l IH]; intros f; simpl; [split; [tauto|done]|].
  destruct (IH (cleanup_one false f t0)) as [H1 H2]. split.
  - intros t [<-|Ht]; [|by apply H1].
    apply cleanup_never_adds, cleanup_one_self.
  - intros p Hp. rewrite H2 by (intros t Ht; apply Hp; by right).
    apply cleanup_one_outside, Hp. by left.
Qed.

(** X13.  A registered directory goes with everything below it. *)
Theorem die_removes_directories_recursively (self : toga) (msg : string)
    (rc : Z) (w : world) (t p : string) :
  keep_temp self = false -> In t (temp_files self) ->
  isdir (fs w) t = true -> under t p = true ->
  exists w', @die unit self msg rc w = Exit rc w' /\ fs w' !! p = None.
Proof.
  intros Hk Ht Hd Hp. eexists. split; [reflexivity|]. simpl. unfold cleanup.
  rewrite Hk.
  assert (fs w !! t = Some Dir \/
          forall q, under t q = true -> fs w !! q = None) as Hinv.
  { left. unfold isdir in Hd. by destruct (fs w !! t) as [[c|]|]. }
  clear Hd. revert Hinv. generalize (fs w) as f. revert Ht.
  generalize (temp_files self) as l.
  induction l as [|t0 l IH]; intros Ht f Hinv; simpl; [done|].
  assert (forall g : gmap string node,
            (forall q, under t q = true -> g !! q = None) ->
            fold_left (cleanup_one false) l g !! p = None) as Hgone.
  { intros g Hg. apply cleanup_never_adds, Hg, Hp. }
  destruct Hinv as [Hdir|Hq].
  - destruct Ht as [->|Ht].
    + apply Hgone. intros q Hq. rewrite cleanup_one_lookup, Hdir. by rewrite Hq.
    + apply IH; [done|].
      pose proof (cleanup_one_lookup f t0) as Hl.
      destruct (f !! t0) as [[c|]|] eqn:E0.
      * left. rewrite Hl. destruct (String.eqb_spec t t0) as [->|]; [|done].
        congruence.
      * destruct (under t0 t) eqn:Eu.
        -- right. intros q Hq. rewrite Hl.
           by rewrite (under_trans _ _ _ Eu Hq).
        -- left. by rewrite Hl, Eu.
      * left. by rewrite Hl.
  - destruct Ht as [->|Ht].
    + apply Hgone. intros q Hq'. by apply cleanup_one_never_adds, Hq.
    + apply IH; [done|]. right. intros q Hq'.
      by apply cleanup_one_never_adds, Hq.
Qed.

(** X14.  With [--keep_temp], [die] deletes nothing. *)
Theorem die_keeps_everything (self : toga) (msg : string) (rc : Z) (w : world) :
  keep_temp self = true ->
  exists w', @die unit self msg rc w = Exit rc w' /\ fs w' = fs w.
Proof.
  intros Hk. eexists. split; [reflexivity|]. simpl. unfold cleanup.
  rewrite Hk. generalize (fs w) as f.
  induction (temp_files self) as [|t l IH]; intros f; simpl; [done|].
  by rewrite cleanup_one_kept.
Qed.

(** *** Merging a directory *)

(** X15.  When [__merge_dir] ends the process, the status is 1, the
    directory was empty, and no file has been touched: nothing of what
    [die] would remove is removed. *)
Theorem merge_dir_exit_touches_nothing (d output : string) (w w' : world)
    (rc : Z) :
  merge_dir d output w = Exit rc w' ->
  rc = 1 /\ fs w' = fs w /\ isdir (fs w) d = true /\
  listdir (fs w) d = [] /\
  err w' = err w ++ ["Error! " +:+ d +:+ " is empty
"].
Proof.
  unfold merge_dir. destruct (isdir (fs w) d) eqn:Ed; cbn [negb]; [|done].
  destruct (listdir (fs w) d) as [|n ns] eqn:El.
  - intros [= <- <-]. done.
  - destruct (isdir (fs w) output); [done|].
    match goal with
    | |- context [merge_files ?f ?a ?l ?b] => by destruct (merge_files f a l b)
    end.
Qed.

(** X16.  When [__merge_dir] returns, the directory is gone with all that
    was in it, the output is a file (unless it lay inside the directory),
    and every other path is as before. *)
Theorem merge_dir_done (d output : string) (w w' : world) :
  merge_dir d output w = Ret tt w' ->
  (forall p, under d p = true -> fs w' !! p = None) /\
  (under d output = false -> exists text, fs w' !! output = Some (File text)) /\
  (forall p, under d p = false -> p <> output -> fs w' !! p = fs w !! p) /\
  err w' = err w /\ out w' = out w.
Proof.
  unfold merge_dir. destruct (isdir (fs w) d) eqn:Ed; cbn [negb]; [|done].
  destruct (listdir (fs w) d) as [|n ns] eqn:El; [done|].
  destruct (isdir (fs w) output); [done|].
  match goal with
  | |- context [merge_files ?f ?a ?l ?b] =>
      destruct (merge_files f a l b) as [text|]; [|done]
  end.
  intros [= <-]. simpl. split_and!; try done.
  - intros p Hp. by rewrite rmtree_lookup, Hp.
  - intros Ho. exists text. by rewrite rmtree_lookup, Ho, lookup_insert_eq.
  - intros p Hp Hne. rewrite rmtree_lookup, Hp.
    by rewrite !lookup_insert_ne.
Qed.

(** *** The project name *)

Lemma remove_char_gone (c : ascii) (s : string) :
  existsb (Ascii.eqb c) (list_ascii_of_string (remove_char c s)) = false.
Proof.
  induction s as [|a s IH]; [done|]. simpl.
  destruct (Ascii.eqb a c) eqn:E; [done|]. simpl.
  by rewrite Ascii.eqb_sym, E.
Qed.

(** X18.  The project name the controller keeps never holds a slash. *)
Theorem project_name_has_no_slash (location cwd : string) (a : args)
    (self : toga) :
  init_fields location cwd a = Some self ->
  existsb (Ascii.eqb slash) (list_ascii_of_string (project_name self)) = false.
Proof.
  unfold init_fields. destruct (project_name_of a) as [pn|]; [|done].
  intros [= <-]. simpl. apply remove_char_gone.
Qed.

Lemma split_on_length (sep : ascii) (s : string) :
  length (split_on sep s) =
  S (length (List.filter (Ascii.eqb sep) (list_ascii_of_string s))).
Proof.
  induction s as [|c s IH]; [done|]. simpl.
  rewrite (Ascii.eqb_sym sep c).
  destruct (Ascii.eqb c sep); simpl; [by rewrite IH|].
  destruct (split_on sep s) as [|w ws]; simpl in *; lia.
Qed.

Lemma filter_nil_existsb {A} (p : A -> bool) (l : list A) :
  existsb p l = false <-> List.filter p l = [].
Proof.
  induction l as [|x l IH]; simpl; [done|].
  destruct (p x); simpl; [split; done|exact IH].
Qed.

(** X19.  Without [--project_name], a chain file whose name has no dot
    makes [__init__] fail on the subscript; a name with a dot, or a given
    project name, does not. *)
Theorem init_fails_without_dot (location cwd : string) (a : args) :
  init_fields location cwd a = None <->
  truthy (a_project_name a) = false /\
  existsb (Ascii.eqb "."%char)
    (list_ascii_of_string (basename (chain_input a))) = false.
Proof.
  unfold init_fields, project_name_of.
  destruct (truthy (a_project_name a)) eqn:Et.
  - destruct (a_project_name a) as [[|c s]|]; try done.
    split; [done|]. by intros [? _].
  - set (b := basename (chain_input a)).
    pose proof (split_on_length "."%char b) as Hlen.
    destruct (nth_error (split_on "."%char b) 1) as [pn|] eqn:En.
    + split; [done|]. intros [_ Hd].
      apply filter_nil_existsb in Hd. rewrite Hd in Hlen. simpl in Hlen.
      assert (1 < length (split_on "."%char b))%nat; [|lia].
      apply nth_error_Some. by rewrite En.
    + split; [|done]. intros _. split; [done|].
      apply nth_error_None in En. rewrite Hlen in En.
      apply filter_nil_existsb.
      destruct (List.filter _ (list_ascii_of_string b)); [done|].
      simpl in En. lia.
Qed.

End TogaMore.

(** ** More about the buckets *)

Module BucketMore.
Import Text Buckets TogaMore.

Lemma match_here_lits (y s : string) :
  match_here (lits y) s = true <-> exists rest, s = y +:+ rest.
Proof.
  revert s. induction y as [|a y IH]; intros s.
  - split; [intros _; by exists s|done].
  - change (lits (String a y)) with (Lit a :: lits y).
    destruct s as [|b s]; simpl.
    + split; [done|]. intros [r Hr]. by rewrite append_cons in Hr.
    + rewrite andb_true_iff, Ascii.eqb_eq, IH. split.
      * intros [-> [r ->]]. by exists r.
      * intros [r Hr]. rewrite append_cons in Hr. injection Hr as -> ->.
        eauto.
Qed.

Lemma match_here_tag (x y s : string) :
  match_here (lits x ++ [AnyChar] ++ lits y) s = true <->
  exists c rest, s = x +:+ String c y +:+ rest.
Proof.
  revert s. induction x as [|a x IH]; intros s.
  - change (lits "" ++ [AnyChar] ++ lits y) with (AnyChar :: lits y).
    destruct s as [|b s]; simpl.
    + split; [done|]. by intros (c & r & Hr).
    + rewrite match_here_lits. split.
      * intros [r ->]. by exists b, r.
      * intros (c & r & Hr). rewrite append_nil, append_cons in Hr.
        injection Hr as -> ->. eauto.
  - change (lits (String a x) ++ [AnyChar] ++ lits y)
      with (Lit a :: (lits x ++ [AnyChar] ++ lits y)).
    destruct s as [|b s]; simpl.
    + split; [done|]. intros (c & r & Hr). by rewrite append_cons in Hr.
    + rewrite andb_true_iff, Ascii.eqb_eq, IH. split.
      * intros [-> (c & r & ->)]. by exists c, r.
      * intros (c & r & Hr). rewrite append_cons in Hr.
        injection Hr as -> ->. eauto.
Qed.

Lemma grep_match_somewhere (p : list pat) (s : string) :
  grep_match p s = true <->
  exists pre suf, s = pre +:+ suf /\ match_here p suf = true.
Proof.
  induction s as [|a s IH].
  - simpl. rewrite orb_false_r. split.
    + intros H. by exists "", "".
    + intros (pre & suf & Hs & Hm). destruct pre; [|done].
      rewrite append_nil in Hs. by subst.
  - change (grep_match p (String a s))
      with (match_here p (String a s) || grep_match p s).
    rewrite orb_true_iff, IH. split.
    + intros [H|(pre & suf & -> & Hm)].
      * by exists "", (String a s).
      * exists (String a pre), suf. by rewrite append_cons.
    + intros (pre & suf & Hs & Hm). destruct pre as [|b pre].
      * left. rewrite append_nil in Hs. by subst.
      * right. rewrite append_cons in Hs. injection Hs as -> ->. eauto.
Qed.

(** X20.  A job line is selected for bucket [b] exactly when it contains
    [_], the number [b], any one character, and [bdb]: the dot of the
    pattern is not taken literally. *)
Theorem bucket_tag_matches (b : Z) (line : string) :
  grep_match (bucket_pattern b) line = true <->
  exists pre c post,
    line = pre +:+ ("_" +:+ pretty b) +:+ String c "bdb" +:+ post.
Proof.
  rewrite grep_match_somewhere. unfold bucket_pattern. split.
  - intros (pre & suf & -> & Hm). apply match_here_tag in Hm as (c & r & ->).
    by exists pre, c, r.
  - intros (pre & c & post & ->). eexists pre, _. split; [done|].
    apply match_here_tag. eauto.
Qed.

Lemma filter_sublist {A} (p : A -> bool) (l : list A) :
  sublist (List.filter p l) l.
Proof.
  induction l as [|a l IH]; simpl; [constructor|].
  destruct (p a); by constructor.
Qed.

(** X21.  A job list pushed for a memory bucket is never empty: it holds,
    in their order, the lines of the combined list that carry the bucket's
    tag.  A bucket with no such line is skipped, and bucket 0 takes the
    combined list as it is. *)
Theorem pushed_joblists_spec (buckets : list Z) (combined : list string)
    (b : Z) (l : list string) :
  In (b, l) (pushed_joblists buckets combined) <->
  In b buckets /\
  (if b =? 0 then l = combined
   else l = grep_bucket b combined /\ l <> [] /\ sublist l combined /\
        forall x, In x l -> grep_match (bucket_pattern b) x = true).
Proof.
  assert (bucket_tasks b combined = Some l <->
          (if b =? 0 then l = combined
           else l = grep_bucket b combined /\ l <> [] /\ sublist l combined /\
                forall x, In x l -> grep_match (bucket_pattern b) x = true))
    as <-.
  { unfold bucket_tasks. destruct (b =? 0); [split; congruence|].
    destruct (grep_bucket b combined) as [|x xs] eqn:E.
    - split; [done|]. by intros (-> & ? & _).
    - split.
      + intros [= <-]. rewrite <- E. split_and!; try done.
        * by rewrite E.
        * apply filter_sublist.
        * intros y Hy. unfold grep_bucket in Hy.
          by apply filter_In in Hy as [_ ?].
      + by intros (-> & _). }
  induction buckets as [|b0 bs IH]; simpl; [tauto|].
  destruct (bucket_tasks b0 combined) as [l0|] eqn:E0; simpl; rewrite IH.
  - split.
    + intros [[= <- <-]|[Hb Hl]]; auto.
    + intros [[<-|Hb] Hl]; auto. left. congruence.
  - split; [tauto|]. intros [[<-|Hb] Hl]; [congruence|auto].
Qed.

End BucketMore.

(** ** Facts about the checks of the input files *)

Module GateFacts.
Import Text Toga Gate.

Definition in_bed (t_in_bed : gset string) (k : nat) (line : string) : bool :=
  bool_decide (nth k (fields line) "" ∈ t_in_bed).

Lemma u12_scan_kept (u12_out : string) (t_in_bed : gset string)
    (lines : list string) (num : nat) (kept : list string) :
  u12_scan u12_out t_in_bed num lines = inr kept ->
  kept = List.filter (in_bed t_in_bed 0) lines /\
  (forall line, In line lines -> length (fields line) = 3%nat) /\
  (forall line, In line kept ->
     isnumeric (nth 1 (fields line) "") = true /\
     is_acc_don (nth 2 (fields line) "") = true).
Proof.
  revert num kept. induction lines as [|line rest IH]; intros num kept.
  - intros [= <-]. split_and!; [done| |]; intros ? [].
  - cbn [u12_scan]. unfold in_bed. cbn [List.filter].
    destruct (length (fields line) =? U12_FILE_COLS)%nat eqn:El; [|done].
    apply Nat.eqb_eq in El. cbn [negb].
    case_bool_decide as Hb; cbn [negb].
    + destruct (isnumeric (nth 1 (fields line) "")) eqn:En; [|done].
      destruct (is_acc_don (nth 2 (fields line) "")) eqn:Ea; [|done].
      cbn [negb].
      destruct (u12_scan u12_out t_in_bed (S num) rest) as [msg|k] eqn:Es;
        [done|].
      intros [= <-]. destruct (IH _ _ Es) as (-> & H3 & Hv).
      split_and!; [done| |].
      * intros l [<-|Hl]; auto.
      * intros l [<-|Hl]; auto.
    + intros Hs. destruct (IH _ _ Hs) as (-> & H3 & Hv).
      split_and!; [done| |done].
      intros l [<-|Hl]; auto.
Qed.

Lemma u12_scan_bad_count (u12_out : string) (t_in_bed : gset string)
    (lines : list string) (num : nat) (line : string) :
  In line lines -> length (fields line) <> 3%nat ->
  exists msg, u12_scan u12_out t_in_bed num lines = inl msg.
Proof.
  revert num. induction lines as [|l rest IH]; intros num Hin Hne; [done|].
  cbn [u12_scan].
  destruct (length (fields l) =? U12_FILE_COLS)%nat eqn:El; [|eauto].
  apply Nat.eqb_eq in El. cbn [negb].
  destruct Hin as [->|Hin]; [done|].
  destruct (IH (S num) Hin Hne) as [msg Hmsg].
  case_bool_decide; cbn [negb]; [|eauto].
  destruct (isnumeric _); [|eauto]. destruct (is_acc_don _); [|eauto].
  cbn [negb]. rewrite Hmsg. eauto.
Qed.

Lemma iso_scan_kept (iso_out : string) (t_in_bed : gset string)
    (lines : list string) (num : nat) (kept : list (string * string)) :
  iso_scan iso_out t_in_bed num lines = inr kept ->
  kept = List.map (fun line => (line, nth 1 (fields line) ""))
           (List.filter (in_bed t_in_bed 1) lines) /\
  (forall line, In line lines -> length (fields line) = 2%nat).
Proof.
  revert num kept. induction lines as [|line rest IH]; intros num kept.
  - intros [= <-]. split; [done|]. intros ? [].
  - cbn [iso_scan]. unfold in_bed. cbn [List.filter].
    destruct (length (fields line) =? ISOFORMS_FILE_COLS)%nat eqn:El; [|done].
    apply Nat.eqb_eq in El. cbn [negb].
    destruct (iso_scan iso_out t_in_bed (S num) rest) as [msg|k] eqn:Es;
      [done|].
    destruct (IH _ _ Es) as (-> & H2).
    case_bool_decide; intros [= <-]; (split; [done|]);
      intros l [<-|Hl]; auto.
Qed.

Section Checks.

Variable eprint : string -> world -> world.
Hypothesis eprint_keeps_files : forall msg w, fs (eprint msg w) = fs w.

(** X22.  When [__check_u12_file] accepts a U12 file, every line of the
    file has three tab-separated fields, and the copy written to the
    project directory holds, in their order, the lines whose transcript is
    in the annotation: there is at least one, and each has a number as
    second field and A or D as third. *)
Theorem check_u12_file_accepts (self : toga) (u12_arg : option string)
    (ref_bed : string) (t_in_bed : gset string) (w w' : world)
    (r : option string) :
  truthy u12_arg = true ->
  check_u12_file eprint self u12_arg ref_bed t_in_bed w = Ret r w' ->
  exists content kept,
    fs w !! default "" u12_arg = Some (File content) /\
    r = Some (path_join (wd self) "u12_data.txt") /\
    fs w' !! path_join (wd self) "u12_data.txt"
      = Some (File (join "" kept)) /\
    kept <> [] /\
    kept = List.filter (in_bed t_in_bed 0) (readlines content) /\
    (forall line, In line (readlines content) ->
       length (fields line) = 3%nat) /\
    (forall line, In line kept ->
       isnumeric (nth 1 (fields line) "") = true /\
       is_acc_don (nth 2 (fields line) "") = true).
Proof.
  intros Ht. unfold check_u12_file. rewrite Ht. cbn [negb].
  destruct (fs w !! default "" u12_arg) as [[content|]|] eqn:Ef; try done.
  destruct (u12_scan _ t_in_bed 1 (readlines content)) as [msg|kept] eqn:Es;
    [done|].
  destruct kept as [|k0 kept]; [done|].
  unfold write_file.
  destruct (isdir (fs w) (path_join (wd self) "u12_data.txt")); [done|].
  cbn [andthen]. intros [= <- <-].
  destruct (u12_scan_kept _ _ _ _ _ Es) as (Hk & H3 & Hv).
  exists content, (k0 :: kept). split_and!; try done.
  rewrite eprint_keeps_files. simpl. by rewrite lookup_insert_eq.
Qed.

(** X23.  A line of the U12 file that does not have three fields is fatal
    wherever it stands and whatever transcript it names: the controller
    leaves with status 1 through [die]. *)
Theorem u12_bad_field_count_is_fatal (self : toga) (u12_arg : option string)
    (ref_bed : string) (t_in_bed : gset string) (w : world)
    (content line : string) :
  truthy u12_arg = true ->
  fs w !! default "" u12_arg = Some (File content) ->
  In line (readlines content) -> length (fields line) <> 3%nat ->
  exists w', check_u12_file eprint self u12_arg ref_bed t_in_bed w = Exit 1 w'
             /\ fs w' = cleanup self (fs w).
Proof.
  intros Ht Hf Hin Hne. unfold check_u12_file. rewrite Ht, Hf. cbn [negb].
  destruct (u12_scan_bad_count (path_join (wd self) "u12_data.txt")
              t_in_bed _ 1%nat line Hin Hne) as [msg ->].
  eexists. split; reflexivity.
Qed.

(** X24.  When [__check_isoforms_file] accepts an isoforms file, every line
    after the header has two fields, every transcript of the annotation is
    the second field of one of them, and the copy written holds the header
    and the lines whose transcript is in the annotation. *)
Theorem check_isoforms_file_accepts (self : toga)
    (isoforms_arg : option string) (t_in_bed : gset string) (w w' : world)
    (r : option string) :
  truthy isoforms_arg = true ->
  check_isoforms_file eprint self isoforms_arg t_in_bed w = Ret r w' ->
  exists content header body,
    fs w !! default "" isoforms_arg = Some (File content) /\
    readlines content = header :: body /\
    r = Some (path_join (wd self) "isoforms.tsv") /\
    (forall line, In line body -> length (fields line) = 2%nat) /\
    (forall t, t ∈ t_in_bed ->
       exists line, In line body /\ nth 1 (fields line) "" = t) /\
    fs w' !! path_join (wd self) "isoforms.tsv" =
      Some (File (join "" (header :: List.filter (in_bed t_in_bed 1) body))).
Proof.
  intros Ht. unfold check_isoforms_file. rewrite Ht. cbn [negb].
  destruct (fs w !! default "" isoforms_arg) as [[content|]|] eqn:Ef;
    try done.
  destruct (readlines content) as [|header body] eqn:Er; [done|].
  destruct (iso_scan _ t_in_bed 2 body) as [msg|kept] eqn:Es; [done|].
  destruct (size (t_in_bed ∖ list_to_set (List.map snd kept)) =? 0)%nat
    eqn:Ez; [|done].
  cbn [negb]. unfold write_file.
  destruct (isdir (fs w) (path_join (wd self) "isoforms.tsv")); [done|].
  cbn [andthen]. intros [= <- <-].
  destruct (iso_scan_kept _ _ _ _ _ Es) as (Hk & H2).
  exists content, header, body. split_and!; try done.
  - intros t Hin. apply Nat.eqb_eq, size_empty_inv in Ez.
    assert (t ∈ (list_to_set (List.map snd kept) : gset string)) as Ht'.
    { destruct (decide (t ∈ (list_to_set (List.map snd kept) : gset string)))
        as [?|Hn]; [done|].
      exfalso. apply (not_elem_of_empty (C:=gset string) t).
      rewrite <- Ez. apply elem_of_difference. done. }
    apply elem_of_list_to_set, list_elem_of_In, in_map_iff in Ht'
      as ([l t'] & Heq & Hl).
    simpl in Heq. subst t'. rewrite Hk in Hl.
    apply in_map_iff in Hl as (line & [= <- Hn] & Hl).
    apply filter_In in Hl as [Hl _]. eauto.
  - rewrite eprint_keeps_files. simpl. rewrite lookup_insert_eq.
    do 3 f_equal. rewrite Hk, List.map_map. simpl. by rewrite List.map_id.
Qed.

End Checks.

Lemma check_files_ok (self : toga) (files : list string) (w : world) :
  Forall (fun f => isfile (fs w) f = true) files ->
  check_files self files w = Ret tt w.
Proof.
  induction 1 as [|f rest Hf _ IH]; [done|]. simpl. by rewrite Hf.
Qed.

Lemma check_files_missing (self : toga) (files : list string) (w : world)
    (f : string) :
  In f files -> isfile (fs w) f = false ->
  exists w', check_files self files w = Exit 1 w' /\
             fs w' = cleanup self (fs w).
Proof.
  induction files as [|g rest IH]; [done|]. simpl. intros [->|Hin] Hf.
  - rewrite Hf. eexists. split; reflexivity.
  - destruct (isfile (fs w) g); [by apply IH|].
    eexists. split; reflexivity.
Qed.

(** X25.  [__check_completeness] returns, changing nothing, when all ten
    scripts of the pipeline are in place; if any is missing the controller
    leaves with status 1 through [die]. *)
Theorem check_completeness_spec (self : toga) (w : world) :
  (Forall (fun f => isfile (fs w) f = true) (files_must_be (LOCATION self)) ->
   check_completeness self w = Ret tt w) /\
  (forall f, In f (files_must_be (LOCATION self)) ->
     isfile (fs w) f = false ->
     exists w', check_completeness self w = Exit 1 w' /\
                fs w' = cleanup self (fs w)) /\
  length (files_must_be (LOCATION self)) = 10%nat.
Proof.
  split_and!; [apply check_files_ok| |done].
  intros f. apply check_files_missing.
Qed.

End GateFacts.

(** ** Facts about pushing the job lists *)

Module PushFacts.
Import Text Toga Buckets Push TogaMore.

#[local] Instance node_eq_dec : EqDecision node.
Proof. solve_decision. Defined.

(** From one state of the loop to a later one: paths are only appended to
    the two lists, the appended temp paths are files, whatever changed on
    disk is among the appended paths, and files stay files. *)
Definition extends (st st' : push_state) : Prop :=
  exists new np,
    p_temp st' = p_temp st ++ new /\
    p_projects st' = p_projects st ++ np /\
    (forall t, In t new -> isfile (p_fs st') t = true) /\
    (forall path, p_fs st' !! path <> p_fs st !! path ->
                  In path new \/ In path np) /\
    (forall path, isfile (p_fs st) path = true ->
                  isfile (p_fs st') path = true).

Lemma extends_refl (st : push_state) : extends st st.
Proof.
  exists [], []. rewrite !app_nil_r. split_and!; done.
Qed.

Lemma extends_trans (a b c : push_state) :
  extends a b -> extends b c -> extends a c.
Proof.
  intros (n1 & p1 & Ht1 & Hp1 & Hf1 & Hc1 & Hm1)
         (n2 & p2 & Ht2 & Hp2 & Hf2 & Hc2 & Hm2).
  exists (n1 ++ n2), (p1 ++ p2).
  rewrite Ht2, Ht1, Hp2, Hp1, !app_assoc. split_and!; try done.
  - intros t Ht. apply in_app_iff in Ht as [Ht|Ht]; auto.
  - intros path Hne. rewrite !in_app_iff.
    destruct (decide (p_fs b !! path = p_fs a !! path)) as [He|He].
    + rewrite <- He in Hne. destruct (Hc2 _ Hne); auto.
    + destruct (Hc1 _ He); auto.
  - auto.
Qed.

Lemma write_extends (st : push_state) (path text : string) l :
  isdir (p_fs st) path = false ->
  extends st {| p_fs := <[path := File text]> (p_fs st);
                p_temp := p_temp st ++ [path];
                p_projects := p_projects st; p_launched := l |}.
Proof.
  intros Hd. exists [path], []. simpl. rewrite app_nil_r.
  split_and!; try done.
  - intros t [<-|[]]. unfold isfile. by rewrite lookup_insert_eq.
  - intros q Hne. left. left.
    destruct (decide (path = q)) as [|Hq]; [done|].
    by rewrite lookup_insert_ne in Hne.
  - intros q Hq. unfold isfile in *.
    destruct (decide (path = q)) as [<-|Hne].
    + by rewrite lookup_insert_eq.
    + by rewrite lookup_insert_ne.
Qed.

Lemma mkdir_extends (st : push_state) (dir : string) l :
  isfile (p_fs st) dir = false ->
  extends st {| p_fs := if isdir (p_fs st) dir then p_fs st
                        else <[dir := Dir]> (p_fs st);
                p_temp := p_temp st;
                p_projects := p_projects st ++ [dir]; p_launched := l |}.
Proof.
  intros Hf. exists [], [dir]. simpl. rewrite app_nil_r.
  split_and!; try done.
  - intros q Hne. right. left.
    destruct (isdir (p_fs st) dir); [done|].
    destruct (decide (dir = q)) as [|Hq]; [done|].
    by rewrite lookup_insert_ne in Hne.
  - intros q Hq. destruct (isdir (p_fs st) dir); [done|].
    unfold isfile in *. destruct (decide (dir = q)) as [<-|Hne].
    + by rewrite Hf in Hq.
    + by rewrite lookup_insert_ne.
Qed.

Section Loop.

Variable abspath : string -> string.
Variable self : toga.
Variable cfg : nf_settings.

Definition written (st : push_state) (path text : string) : push_state :=
  {| p_fs := <[path := File text]> (p_fs st);
     p_temp := p_temp st ++ [path];
     p_projects := p_projects st; p_launched := p_launched st |}.

Lemma push_one_extends (st st' : push_state) (b : Z) :
  push_one abspath self cfg st b = Some st' -> extends st st'.
Proof.
  unfold push_one.
  set (conf := str_replace _ _ _).
  destruct (local_executor cfg).
  - destruct (b =? 0).
    + destruct (isfile (p_fs st) (project_path self cfg b)) eqn:Ef; [done|].
      intros [= <-]. by apply mkdir_extends.
    + destruct (grep_bucket b (combined_lines cfg (p_fs st))) as [|x xs].
      * intros [= <-]. apply extends_refl.
      * destruct (isdir (p_fs st) (joblist_path self b)) eqn:Ed; [done|].
        cbn [p_fs].
        destruct (isfile _ (project_path self cfg b)) eqn:Ef; [done|].
        intros [= <-].
        apply (extends_trans _
                 (written st (joblist_path self b) (grep_output (x :: xs)))).
        -- by apply write_extends.
        -- by apply (mkdir_extends (written st _ _)).
  - destruct (isdir (p_fs st) (config_path self b)) eqn:Ec; [done|].
    cbn [p_fs].
    destruct (b =? 0).
    + destruct (isfile _ (project_path self cfg b)) eqn:Ef; [done|].
      intros [= <-].
      apply (extends_trans _ (written st (config_path self b) conf)).
      -- by apply write_extends.
      -- by apply (mkdir_extends (written st _ _)).
    + destruct (grep_bucket b _) as [|x xs].
      * intros [= <-]. by apply write_extends.
      * destruct (isdir _ (joblist_path self b)) eqn:Ed; [done|].
        cbn [p_fs].
        destruct (isfile _ (project_path self cfg b)) eqn:Ef; [done|].
        intros [= <-].
        apply (extends_trans _ (written st (config_path self b) conf));
          [by apply write_extends|].
        apply (extends_trans _
                 (written (written st (config_path self b) conf)
                    (joblist_path self b) (grep_output (x :: xs)))).
        -- by apply (write_extends (written st _ _)).
        -- by apply (mkdir_extends (written (written st _ _) _ _)).
Qed.

Lemma push_all_extends (buckets : list Z) (st st' : push_state) :
  push_all abspath self cfg st buckets = Some st' -> extends st st'.
Proof.
  revert st. induction buckets as [|b bs IH]; intros st; simpl.
  - intros [= <-]. apply extends_refl.
  - destruct (push_one abspath self cfg st b) as [st1|] eqn:E1; [|done].
    intros H. eapply extends_trans; [by eapply push_one_extends|by apply IH].
Qed.

(** X26.  The loop that pushes the job lists registers what it writes:
    [self.temp_files] only grows, every path added to it is a file when the
    loop ends, and any path whose content the loop changed is either one of
    those or one of the log directories it made. *)
Theorem push_registers_what_it_writes (buckets : list Z)
    (st st' : push_state) :
  push_all abspath self cfg st buckets = Some st' ->
  exists new np,
    p_temp st' = p_temp st ++ new /\
    p_projects st' = p_projects st ++ np /\
    (forall t, In t new -> isfile (p_fs st') t = true) /\
    (forall path, p_fs st' !! path <> p_fs st !! path ->
                  In path new \/ In path np).
Proof.
  intros H. apply push_all_extends in H as (new & np & ? & ? & ? & ? & _).
  by exists new, np.
Qed.

Lemma cleanup_removes (keep_self : toga) (f : gmap string node) (t : string) :
  keep_temp keep_self = false -> In t (temp_files keep_self) ->
  cleanup keep_self f !! t = None.
Proof.
  intros Hk. unfold cleanup. rewrite Hk. revert f.
  induction (temp_files keep_self) as [|t0 l IH]; intros f; [done|].
  simpl. intros [<-|Ht]; [|by apply IH].
  apply cleanup_never_adds, cleanup_one_self.
Qed.

(** X27.  If the controller dies after the loop, with temp files not
    kept, nothing the loop wrote stays behind: every path it changed,
    other than the log directories, is gone. *)
Theorem die_after_push_leaves_nothing (buckets : list Z) (w : world)
    (st' : push_state) (msg : string) (rc : Z) (path : string) :
  keep_temp self = false ->
  push_all abspath self cfg (start self (fs w)) buckets = Some st' ->
  p_fs st' !! path <> fs w !! path -> ~ In path (p_projects st') ->
  exists w',
    @die unit (with_temp_files (p_temp st') self) msg rc
      (set_fs (p_fs st') w) = Exit rc w' /\
    fs w' !! path = None.
Proof.
  intros Hk Hp Hne Hnp. eexists. split; [reflexivity|]. simpl.
  apply push_all_extends in Hp as (new & np & Ht & Hpr & _ & Hc & _).
  simpl in Ht, Hpr, Hc. apply cleanup_removes; [done|]. simpl.
  rewrite Ht, in_app_iff. right.
  destruct (Hc _ Hne) as [?|Hin]; [done|].
  exfalso. apply Hnp. by rewrite Hpr.
Qed.

Lemma combined_lines_insert (f : gmap string node) (path : string)
    (n : node) :
  path <> cesar_combined cfg ->
  combined_lines cfg (<[path := n]> f) = combined_lines cfg f.
Proof. intros Hne. unfold combined_lines. by rewrite lookup_insert_ne. Qed.

Lemma push_one_launch (st st' : push_state) (b : Z) :
  config_path self b <> cesar_combined cfg ->
  joblist_path self b <> cesar_combined cfg ->
  project_path self cfg b <> cesar_combined cfg ->
  push_one abspath self cfg st b = Some st' ->
  combined_lines cfg (p_fs st') = combined_lines cfg (p_fs st) /\
  List.map l_cwd (p_launched st') =
  List.map l_cwd (p_launched st) ++
  match bucket_tasks b (combined_lines cfg (p_fs st)) with
  | Some _ => [project_path self cfg b]
  | None => []
  end.
Proof.
  intros Hc Hj Hp. unfold push_one, bucket_tasks.
  set (conf := str_replace _ _ _).
  assert (forall f : gmap string node,
            combined_lines cfg
              (if isdir f (project_path self cfg b) then f
               else <[project_path self cfg b := Dir]> f)
            = combined_lines cfg f) as Hmk.
  { intros f. destruct (isdir f _); [done|]. by apply combined_lines_insert. }
  destruct (local_executor cfg).
  - destruct (b =? 0).
    + destruct (isfile (p_fs st) (project_path self cfg b)); [done|].
      intros [= <-]. cbn [p_fs p_launched]. rewrite Hmk.
      by rewrite List.map_app.
    + destruct (grep_bucket b (combined_lines cfg (p_fs st))) as [|x xs].
      * intros [= <-]. by rewrite app_nil_r.
      * destruct (isdir (p_fs st) (joblist_path self b)); [done|].
        cbn [p_fs].
        destruct (isfile _ (project_path self cfg b)); [done|].
        intros [= <-]. cbn [p_fs p_launched].
        rewrite Hmk, combined_lines_insert by done.
        by rewrite List.map_app.
  - destruct (isdir (p_fs st) (config_path self b)); [done|].
    cbn [p_fs]. rewrite (combined_lines_insert _ _ _ Hc).
    destruct (b =? 0).
    + destruct (isfile _ (project_path self cfg b)); [done|].
      intros [= <-]. cbn [p_fs p_launched].
      rewrite Hmk, combined_lines_insert by done.
      by rewrite List.map_app.
    + destruct (grep_bucket b (combined_lines cfg (p_fs st))) as [|x xs].
      * intros [= <-]. cbn [p_fs p_launched].
        rewrite combined_lines_insert by done. by rewrite app_nil_r.
      * destruct (isdir _ (joblist_path self b)); [done|].
        cbn [p_fs].
        destruct (isfile _ (project_path self cfg b)); [done|].
        intros [= <-]. cbn [p_fs p_launched].
        rewrite Hmk, !combined_lines_insert by done.
        by rewrite List.map_app.
Qed.

(** X28.  As long as the loop does not overwrite the combined job list
    (its own files have other names), it starts one process per bucket
    that has jobs, in bucket order, each in the log directory of its
    bucket: the buckets are those the selection by tag keeps. *)
Theorem push_launches_follow_selection (buckets : list Z)
    (st st' : push_state) :
  (forall b, In b buckets ->
     config_path self b <> cesar_combined cfg /\
     joblist_path self b <> cesar_combined cfg /\
     project_path self cfg b <> cesar_combined cfg) ->
  push_all abspath self cfg st buckets = Some st' ->
  List.map l_cwd (p_launched st') =
  List.map l_cwd (p_launched st) ++
  List.map (fun bl => project_path self cfg bl.1)
    (pushed_joblists buckets (combined_lines cfg (p_fs st))).
Proof.
  revert st. induction buckets as [|b bs IH]; intros st Hne; simpl.
  - intros [= <-]. by rewrite app_nil_r.
  - destruct (push_one abspath self cfg st b) as [st1|] eqn:E1; [|done].
    intros H. destruct (Hne b (or_introl eq_refl)) as (Hc & Hj & Hp).
    destruct (push_one_launch _ _ _ Hc Hj Hp E1) as [Hl Hm].
    assert (forall b0, In b0 bs ->
              config_path self b0 <> cesar_combined cfg /\
              joblist_path self b0 <> cesar_combined cfg /\
              project_path self cfg b0 <> cesar_combined cfg) as Hne'
      by (intros b0 Hb0; apply Hne; by right).
    rewrite (IH st1 Hne' H), Hm, Hl, <- app_assoc. f_equal.
    by destruct (bucket_tasks b (combined_lines cfg (p_fs st))).
Qed.

End Loop.

End PushFacts.

(** ** The properties above on the sample inputs *)

Module OnSamples.
Import Text Classify Samples ClassifyFacts ClassifyMore.
Import Toga Gate Push Buckets MoreSamples TogaMore GateFacts PushFacts.

Local Abbreviation m := (const_model 0.5%float).
Local Abbreviation lg := log10_stand_in.

Lemma dropped_row_in_no_list_witness :
  In row_dropped [row_me; row_dropped] /\
  is_p_pseudogene row_dropped = false /\
  reaches_output row_dropped = false /\
  gene_class_chains lg m m 0.5%float [row_me; row_dropped] !! "G1"
    = Some (Classes [7] [] [] []) /\
  ~ In 9 ([7] ++ [] ++ [] ++ []).
Proof.
  assert (In row_dropped [row_me; row_dropped]) as H1 by (right; by left).
  assert (is_p_pseudogene row_dropped = false) as H2 by reflexivity.
  assert (reaches_output row_dropped = false) as H3 by reflexivity.
  assert (forall r', In r' [row_me; row_dropped] ->
            gene r' = gene row_dropped -> chain r' = chain row_dropped ->
            r' = row_dropped) as H4.
  { intros r' [<-|[<-|[]]] _ Hc; [discriminate Hc|reflexivity]. }
  assert (gene_class_chains lg m m 0.5%float [row_me; row_dropped]
            !! gene row_dropped = Some (Classes [7] [] [] [])) as H5
    by (by vm_compute).
  split_and!; [exact H1|exact H2|exact H3|exact H5|].
  exact (dropped_row_in_no_list lg m m 0.5%float [row_me; row_dropped]
           row_dropped _ H1 H2 H3 H4 H5).
Defined.

Lemma pp_column_in_table_order_witness :
  gene_class_chains lg m m 0.5%float [row_pp; row_me] !! "G1"
    = Some (Classes [7] [] [] [1]) /\
  [1] = List.map chain
          (List.filter (fun r => is_p_pseudogene r && bool_decide (gene r = "G1"))
             [row_pp; row_me]).
Proof.
  assert (gene_class_chains lg m m 0.5%float [row_pp; row_me] !! "G1"
          = Some (Classes [7] [] [] [1])) as H by (by vm_compute).
  split; [exact H|].
  exact (pp_column_in_table_order lg m m 0.5%float [row_pp; row_me] "G1" _ H).
Defined.

Lemma trans_column_is_gene_trans_witness :
  (forall x, PrimFloat.leb 0%float (m x) = true) /\
  gene_class_chains lg m m 0.5%float [row_me; row_trans] !! "G2"
    = Some (Classes [] [] [2] []) /\
  [2] = dd_get (gene_trans [row_me; row_trans]) "G2".
Proof.
  assert (forall x, PrimFloat.leb 0%float (m x) = true) as H1
    by (intros x; reflexivity).
  assert (gene_class_chains lg m m 0.5%float [row_me; row_trans] !! "G2"
          = Some (Classes [] [] [2] [])) as H2 by (by vm_compute).
  split_and!; [exact H1|exact H2|].
  exact (trans_column_is_gene_trans lg m m 0.5%float [row_me; row_trans]
           "G2" _ H1 H1 H2).
Defined.

Lemma sentinel_score_filed_as_trans_witness :
  In row_me (hard_filter [row_me]) /\
  PrimFloat.eqb
    (model_score lg (const_model (-1)%float) (const_model (-1)%float) row_me)
    (-1)%float = true /\
  exists k,
    gene_class_chains lg (const_model (-1)%float) (const_model (-1)%float)
      0.5%float [row_me] !! "G1" = Some k /\ In 7 (TRANS k).
Proof.
  assert (In row_me (hard_filter [row_me])) as H1 by (vm_compute; auto).
  assert (PrimFloat.eqb
            (model_score lg (const_model (-1)%float) (const_model (-1)%float)
               row_me) (-1)%float = true) as H2 by reflexivity.
  split_and!; [exact H1|exact H2|].
  exact (sentinel_score_filed_as_trans lg (const_model (-1)%float)
           (const_model (-1)%float) 0.5%float [row_me] row_me H1 H2).
Defined.

Lemma nan_score_is_orth_witness :
  In row_me (hard_filter [row_me]) /\
  is_nan (model_score lg (const_model nan) (const_model nan) row_me) = true /\
  exists k,
    gene_class_chains lg (const_model nan) (const_model nan)
      0.5%float [row_me] !! "G1" = Some k /\ In 7 (ORTH k).
Proof.
  assert (In row_me (hard_filter [row_me])) as H1 by (vm_compute; auto).
  assert (is_nan (model_score lg (const_model nan) (const_model nan) row_me)
          = true) as H2 by reflexivity.
  split_and!; [exact H1|exact H2|].
  exact (nan_score_is_orth lg (const_model nan) (const_model nan) 0.5%float
           [row_me] row_me H1 H2).
Defined.

Lemma models_never_see_nan_witness :
  In (derive lg row_me) (df_me lg [row_me]) /\
  In (intr_perc (derive lg row_me)) (X_me (derive lg row_me)) /\
  is_nan (intr_perc (derive lg row_me)) = false.
Proof.
  assert (In (derive lg row_me) (df_me lg [row_me])) as H1
    by (vm_compute; auto).
  assert (In (intr_perc (derive lg row_me)) (X_me (derive lg row_me))) as H2
    by (simpl; auto 10).
  split_and!; [exact H1|exact H2|].
  exact (models_never_see_nan lg [row_me] (derive lg row_me) _
           (or_intror (conj H1 H2))).
Defined.


Lemma die_removes_registered_witness :
  keep_temp sample_toga = false /\
  exists w', @die unit sample_toga "Error!" 1 sample_world = Exit 1 w' /\
    (forall t, In t (temp_files sample_toga) -> fs w' !! t = None) /\
    (forall p, (forall t, In t (temp_files sample_toga) -> under t p = false) ->
               fs w' !! p = fs sample_world !! p).
Proof.
  assert (keep_temp sample_toga = false) as H by reflexivity.
  split; [exact H|].
  exact (die_removes_registered sample_toga "Error!" 1 sample_world H).
Defined.

Lemma die_removes_directories_recursively_witness :
  keep_temp sample_toga = false /\
  In "/wd/cesar_jobs" (temp_files sample_toga) /\
  isdir (fs sample_world) "/wd/cesar_jobs" = true /\
  under "/wd/cesar_jobs" "/wd/cesar_jobs/job_1" = true /\
  exists w', @die unit sample_toga "Error!" 1 sample_world = Exit 1 w' /\
             fs w' !! "/wd/cesar_jobs/job_1" = None.
Proof.
  assert (keep_temp sample_toga = false) as H1 by reflexivity.
  assert (In "/wd/cesar_jobs" (temp_files sample_toga)) as H2
    by (right; by left).
  assert (isdir (fs sample_world) "/wd/cesar_jobs" = true) as H3
    by (by vm_compute).
  assert (under "/wd/cesar_jobs" "/wd/cesar_jobs/job_1" = true) as H4
    by reflexivity.
  split_and!; [exact H1|exact H2|exact H3|exact H4|].
  exact (die_removes_directories_recursively sample_toga "Error!" 1
           sample_world _ _ H1 H2 H3 H4).
Defined.

Lemma die_keeps_everything_witness :
  keep_temp sample_toga_keeping = true /\
  exists w', @die unit sample_toga_keeping "Error!" 1 sample_world = Exit 1 w'
             /\ fs w' = fs sample_world.
Proof.
  assert (keep_temp sample_toga_keeping = true) as H by reflexivity.
  split; [exact H|].
  exact (die_keeps_everything sample_toga_keeping "Error!" 1 sample_world H).
Defined.

Lemma merge_dir_exit_touches_nothing_witness :
  merge_dir "/wd/inact_mut_data" "/wd/inact_mut_data.txt" sample_world
    = Exit 1 (eputs "Error! /wd/inact_mut_data is empty
" sample_world) /\
  fs (eputs "Error! /wd/inact_mut_data is empty
" sample_world) = fs sample_world.
Proof.
  assert (merge_dir "/wd/inact_mut_data" "/wd/inact_mut_data.txt" sample_world
          = Exit 1 (eputs "Error! /wd/inact_mut_data is empty
" sample_world)) as H by (by vm_compute).
  split; [exact H|].
  exact (proj1 (proj2 (merge_dir_exit_touches_nothing _ _ _ _ _ H))).
Defined.

Lemma merge_dir_done_witness :
  exists w',
    merge_dir "/wd/rejected" "/wd/genes_rejection_reason.tsv" sample_world
      = Ret tt w' /\
    forall p, under "/wd/rejected" p = true -> fs w' !! p = None.
Proof.
  eexists.
  assert (merge_dir "/wd/rejected" "/wd/genes_rejection_reason.tsv"
            sample_world = Ret tt _) as H by (vm_compute; reflexivity).
  split; [exact H|].
  exact (proj1 (merge_dir_done _ _ _ _ H)).
Defined.

Lemma project_name_has_no_slash_witness :
  exists self,
    init_fields "/opt/toga" "/home/u" sample_args = Some self /\
    existsb (Ascii.eqb slash) (list_ascii_of_string (project_name self))
      = false.
Proof.
  eexists.
  assert (init_fields "/opt/toga" "/home/u" sample_args = Some _) as H
    by (vm_compute; reflexivity).
  split; [exact H|].
  exact (project_name_has_no_slash _ _ _ _ H).
Defined.

Lemma say_keeps_files (msg : string) (w : world) : fs (say msg w) = fs w.
Proof. reflexivity. Qed.

Lemma check_u12_file_accepts_witness :
  truthy (Some "/in/u12.tsv") = true /\
  exists r w',
    check_u12_file say sample_toga (Some "/in/u12.tsv") "hg38.bed" sample_bed
      world_with_u12 = Ret r w' /\
    r = Some "/wd/u12_data.txt".
Proof.
  assert (truthy (Some "/in/u12.tsv") = true) as H1 by reflexivity.
  split; [exact H1|]. do 2 eexists.
  assert (check_u12_file say sample_toga (Some "/in/u12.tsv") "hg38.bed"
            sample_bed world_with_u12 = Ret _ _) as H2
    by (vm_compute; reflexivity).
  split; [exact H2|].
  destruct (check_u12_file_accepts say say_keeps_files sample_toga _ _ _ _ _ _
              H1 H2) as (c & k & _ & Hr & _).
  exact Hr.
Defined.

Lemma u12_bad_field_count_is_fatal_witness :
  truthy (Some "/in/u12.tsv") = true /\
  fs world_with_bad_u12 !! "/in/u12.tsv" = Some (File "T1	3	A
T9	7
") /\
  In "T9	7
" (readlines "T1	3	A
T9	7
") /\
  length (fields "T9	7
") <> 3%nat /\
  exists w',
    check_u12_file say sample_toga (Some "/in/u12.tsv") "hg38.bed" sample_bed
      world_with_bad_u12 = Exit 1 w' /\
    fs w' = cleanup sample_toga (fs world_with_bad_u12).
Proof.
  assert (truthy (Some "/in/u12.tsv") = true) as H1 by reflexivity.
  assert (fs world_with_bad_u12 !! default "" (Some "/in/u12.tsv")
          = Some (File "T1	3	A
T9	7
")) as H2 by (by vm_compute).
  assert (In "T9	7
" (readlines "T1	3	A
T9	7
")) as H3 by (right; by left).
  assert (length (fields "T9	7
") <> 3%nat) as H4 by (by vm_compute).
  split_and!; [exact H1|exact H2|exact H3|exact H4|].
  exact (u12_bad_field_count_is_fatal say sample_toga (Some "/in/u12.tsv")
           "hg38.bed" sample_bed world_with_bad_u12 _ _ H1 H2 H3 H4).
Defined.

Lemma check_isoforms_file_accepts_witness :
  truthy (Some "/in/iso.tsv") = true /\
  exists r w',
    check_isoforms_file say sample_toga (Some "/in/iso.tsv") sample_bed
      world_with_isoforms = Ret r w' /\
    r = Some "/wd/isoforms.tsv".
Proof.
  assert (truthy (Some "/in/iso.tsv") = true) as H1 by reflexivity.
  split; [exact H1|]. do 2 eexists.
  assert (check_isoforms_file say sample_toga (Some "/in/iso.tsv") sample_bed
            world_with_isoforms = Ret _ _) as H2
    by (vm_compute; reflexivity).
  split; [exact H2|].
  destruct (check_isoforms_file_accepts say say_keeps_files sample_toga _ _ _
              _ _ H1 H2) as (c & h & b & _ & _ & Hr & _).
  exact Hr.
Defined.

Lemma push_registers_what_it_writes_witness :
  exists st',
    push_all (fun x => x) sample_toga sample_cfg
      (start sample_toga sample_fs) [2; 7; 10] = Some st' /\
    exists new np,
      p_temp st' = temp_files sample_toga ++ new /\
      p_projects st' = [] ++ np /\
      (forall t, In t new -> isfile (p_fs st') t = true) /\
      (forall path, p_fs st' !! path <> sample_fs !! path ->
                    In path new \/ In path np).
Proof.
  eexists.
  assert (push_all (fun x => x) sample_toga sample_cfg
            (start sample_toga sample_fs) [2; 7; 10] = Some _) as H
    by (vm_compute; reflexivity).
  split; [exact H|].
  exact (push_registers_what_it_writes (fun x => x) sample_toga sample_cfg
           [2; 7; 10] _ _ H).
Defined.

Lemma die_after_push_leaves_nothing_witness :
  keep_temp sample_toga = false /\
  exists st',
    push_all (fun x => x) sample_toga sample_cfg
      (start sample_toga (fs (set_fs sample_fs sample_world))) [2; 7; 10]
      = Some st' /\
    p_fs st' !! "/wd/cesar_config_7_queue.nf"
      <> fs (set_fs sample_fs sample_world) !! "/wd/cesar_config_7_queue.nf" /\
    ~ In "/wd/cesar_config_7_queue.nf" (p_projects st') /\
    exists w',
      @die unit (with_temp_files (p_temp st') sample_toga) "Error!" 1
        (set_fs (p_fs st') (set_fs sample_fs sample_world)) = Exit 1 w' /\
      fs w' !! "/wd/cesar_config_7_queue.nf" = None.
Proof.
  assert (keep_temp sample_toga = false) as H1 by reflexivity.
  split; [exact H1|]. eexists.
  assert (push_all (fun x => x) sample_toga sample_cfg
            (start sample_toga (fs (set_fs sample_fs sample_world)))
            [2; 7; 10] = Some _) as H2 by (vm_compute; reflexivity).
  match type of H2 with _ = Some ?s =>
    assert (p_fs s !! "/wd/cesar_config_7_queue.nf"
            <> fs (set_fs sample_fs sample_world)
                 !! "/wd/cesar_config_7_queue.nf") as H3
      by (by vm_compute);
    assert (~ In "/wd/cesar_config_7_queue.nf" (p_projects s)) as H4
      by (simpl; intros [H|[H|[]]]; discriminate H)
  end.
  split_and!; [exact H2|exact H3|exact H4|].
  exact (die_after_push_leaves_nothing (fun x => x) sample_toga sample_cfg
           [2; 7; 10] _ _ "Error!" 1 _ H1 H2 H3 H4).
Defined.

Lemma push_launches_follow_selection_witness :
  (forall b, In b [2; 7; 10] ->
     config_path sample_toga b <> cesar_combined sample_cfg /\
     joblist_path sample_toga b <> cesar_combined sample_cfg /\
     project_path sample_toga sample_cfg b <> cesar_combined sample_cfg) /\
  exists st',
    push_all (fun x => x) sample_toga sample_cfg
      (start sample_toga sample_fs) [2; 7; 10] = Some st' /\
    List.map l_cwd (p_launched st') =
    ["/nf/hg38_cesar_at_8344169_q_2"; "/nf/hg38_cesar_at_8344169_q_10"].
Proof.
  assert (forall b, In b [2; 7; 10] ->
     config_path sample_toga b <> cesar_combined sample_cfg /\
     joblist_path sample_toga b <> cesar_combined sample_cfg /\
     project_path sample_toga sample_cfg b <> cesar_combined sample_cfg) as H1.
  { intros b [<-|[<-|[<-|[]]]]; split_and!; by vm_compute. }
  split; [exact H1|]. eexists.
  assert (push_all (fun x => x) sample_toga sample_cfg
            (start sample_toga sample_fs) [2; 7; 10] = Some _) as H2
    by (vm_compute; reflexivity).
  split; [exact H2|].
  exact (push_launches_follow_selection (fun x => x) sample_toga sample_cfg
           [2; 7; 10] _ _ H1 H2).
Defined.

End OnSamples.
